(** * The meeting feature of 3akai-ux: API client and page controller

    A shallow embedding of [api.meeting] (the REST binding) and of
    [ui/js/meeting.js] (the page controller), with the properties of the
    meeting specification (C1 to C10) and further properties of the code
    (X1 to X21) stated over the embedding.

    JavaScript values are a small universe of primitives and object
    references; objects live in a heap, because the push-notification
    handler writes into an object it later installs as the profile.
    Functions that can throw or that change state are written in a state
    and exception monad. *)

From Stdlib Require Import ZArith Ascii String List Lia.
From stdpp Require Import base option gmap strings list pretty.


(** ** JavaScript values *)

Definition loc := positive.
Bind Scope positive_scope with loc.

Inductive jsval :=
| JUndefined
| JNull
| JBool (b : bool)
| JNum (n : Z)
| JStr (s : string)
| JRef (l : loc).

#[global] Instance jsval_eq_dec : EqDecision jsval.
Proof. solve_decision. Defined.

(** An object is its own properties; an array is the object whose
    properties are its indices and [length]. *)
Abbreviation jsobj := (gmap string jsval).
Abbreviation heap := (gmap loc jsobj).

(** ToBoolean: what [if (v)], [!v] and [v || w] look at. *)
Definition truthy (v : jsval) : bool :=
  match v with
  | JUndefined | JNull => false
  | JBool b => b
  | JNum n => negb (n =? 0)%Z
  | JStr s => negb (String.eqb s "")
  | JRef _ => true
  end.

(** [!v] *)
Definition js_not (v : jsval) : jsval := JBool (negb (truthy v)).

(** [v === w]: same primitive, or the same object. *)
Definition strict_eq (v w : jsval) : bool := bool_decide (v = w).

(** ToString, as used by ['...' + v]; numbers are integers, an object is
    a plain object. *)
Definition to_str (v : jsval) : string :=
  match v with
  | JUndefined => "undefined"
  | JNull => "null"
  | JBool true => "true"
  | JBool false => "false"
  | JNum n => pretty n
  | JStr s => s
  | JRef _ => "[object Object]"
  end.

Definition obj_at (h : heap) (l : loc) : jsobj := default ∅ (h !! l).

(** [_.keys(v)]: the names of the properties of an object, none for a
    value that is not an object. *)
Definition keys (h : heap) (v : jsval) : list string :=
  match v with
  | JRef l => (map_to_list (obj_at h l)).*1
  | _ => []
  end.

Definition array_obj (elems : list jsval) : jsobj :=
  <["length" := JNum (Z.of_nat (length elems))]>
    (list_to_map (imap (λ i v, (pretty i, v)) elems)).

(** ** Exceptions and state *)

Inductive js_error :=
| JsError (message : string)    (* [throw new Error(message)] *)
| JsTypeError.                  (* raised by the language itself *)

Inductive outcome (A : Type) : Type :=
| Ret (a : A)
| Throw (e : js_error)
| OutOfFuel
| NotModelled.                  (* outside what is modelled of the platform *)
Arguments Ret {A} a.
Arguments Throw {A} e.
Arguments OutOfFuel {A}.
Arguments NotModelled {A}.

Definition ST (S A : Type) : Type := S → outcome A * S.

Definition st_ret {S A} (a : A) : ST S A := λ s, (Ret a, s).

Definition st_bind {S A B} (m : ST S A) (k : A → ST S B) : ST S B :=
  λ s, match m s with
       | (Ret a, s') => k a s'
       | (Throw e, s') => (Throw e, s')
       | (OutOfFuel, s') => (OutOfFuel, s')
       | (NotModelled, s') => (NotModelled, s')
       end.

Definition throw {S A} (e : js_error) : ST S A := λ s, (Throw e, s).
Definition gets {S A} (f : S → A) : ST S A := λ s, (Ret (f s), s).
Definition modify {S} (f : S → S) : ST S unit := λ s, (Ret tt, f s).

Notation "x <- m ;; k" := (st_bind m (λ x, k))
  (at level 100, m at next level, right associativity).
Notation "m ;;; k" := (st_bind m (λ _, k))
  (at level 100, right associativity).

(** Run the commands of a list in order; an exception ends the run. *)
Fixpoint for_each {S A} (f : A → ST S unit) (l : list A) : ST S unit :=
  match l with
  | [] => st_ret tt
  | x :: l' => f x ;;; for_each f l'
  end.

(** [v.p]; the length of a string is counted in the characters of the
    model. *)
Definition get_prop (h : heap) (v : jsval) (p : string) : outcome jsval :=
  match v with
  | JUndefined | JNull => Throw JsTypeError
  | JRef l => Ret (default JUndefined (obj_at h l !! p))
  | JStr s =>
      if String.eqb p "length" then Ret (JNum (Z.of_nat (String.length s)))
      else Ret JUndefined
  | JBool _ | JNum _ => Ret JUndefined
  end.

(** [v.p = x]; outside strict mode a write to a primitive is dropped. *)
Definition set_prop (h : heap) (v : jsval) (p : string) (x : jsval)
  : outcome heap :=
  match v with
  | JUndefined | JNull => Throw JsTypeError
  | JRef l => Ret (<[l := <[p := x]> (obj_at h l)]> h)
  | JBool _ | JNum _ | JStr _ => Ret h
  end.

Definition lift {S A} (o : outcome A) : ST S A :=
  match o with
  | Ret a => st_ret a
  | Throw e => throw e
  | OutOfFuel => λ s, (OutOfFuel, s)
  | NotModelled => λ s, (NotModelled, s)
  end.

(** ** The API client ([api.meeting]) *)

Module Api.

(** What jQuery hands to an [error] handler. *)
Record jqXHR := { status : Z; responseText : string }.

(** [{'code': ..., 'msg': ...}] *)
Record api_error := { code : Z; msg : string }.

(** One argument of a callback invocation. *)
Inductive cb_arg :=
| ArgNull
| ArgError (e : api_error)
| ArgData (d : jsval).

(** The [callback] parameter: not passed, the default [function() {}],
    or a function of the caller, known by its name. *)
Inductive callback :=
| CbUndefined
| CbNoop
| CbFunction (k : string).

(** [callback || function() {}] *)
Definition or_noop (cb : callback) : callback :=
  match cb with
  | CbUndefined => CbNoop
  | _ => cb
  end.

(** The statements found in the bodies of the [success], [error] and
    [statusCode] handlers. *)
Inductive action :=
| ConsoleInfo (text : string)
| Invoke (cb : callback) (args : list cb_arg).

Inductive ajax_data :=
| DataLiteral (fields : list (string * jsval))   (* [{'k': v, ...}] *)
| DataValue (v : jsval).                         (* an object of the caller *)

(** The settings object given to [$.ajax]. *)
Record ajax_settings := {
  url : string;
  type_ : option string;
  data : option ajax_data;
  success : jsval → list action;
  error : jqXHR → list action;
  statusCode : list (Z * list action)
}.

(** The transport and what has been observed of the callbacks. *)
Record net := {
  pending : list ajax_settings;              (* requests in flight *)
  calls : list (string * list cb_arg);       (* callback invocations *)
  console : list string
}.

Definition no_traffic : net := {| pending := []; calls := []; console := [] |}.

(** [$.ajax(settings)] *)
Definition ajax (s : ajax_settings) : ST net unit :=
  modify (λ n, {| pending := pending n ++ [s];
                  calls := calls n; console := console n |}).

Definition err_of (x : jqXHR) : api_error :=
  {| code := status x; msg := responseText x |}.

Definition getMeeting (meetingId : jsval) (callback : callback) : ST net unit :=
  if negb (truthy meetingId) then
    throw (JsError "A valid meeting id should be provided")
  else
    ajax {| url := "/api/meeting/" +:+ to_str meetingId;
            type_ := None;
            data := None;
            success := λ data, [Invoke callback [ArgNull; ArgData data]];
            error := λ jqXHR, [Invoke callback [ArgError (err_of jqXHR)]];
            statusCode := [] |}.

Definition createMeeting
    (displayName description record allModerators waitModerator visibility
       managers members : jsval) (callback : callback) : ST net unit :=
  if negb (truthy displayName) then
    throw (JsError "A valid description topic should be provided")
  else
    let callback := or_noop callback in
    let data := [("displayName", displayName);
                 ("description", description);
                 ("record", record);
                 ("allModerators", allModerators);
                 ("waitModerator", waitModerator);
                 ("visibility", visibility);
                 ("managers", managers);
                 ("members", members)] in
    ajax {| url := "/api/meeting/create";
            type_ := Some "POST";
            data := Some (DataLiteral data);
            success := λ data, [Invoke callback [ArgNull; ArgData data]];
            error := λ jqXHR, [Invoke callback [ArgError (err_of jqXHR)]];
            statusCode := [] |}.

Definition updateMeeting (h : heap) (meetingId params : jsval)
    (callback : callback) : ST net unit :=
  if negb (truthy meetingId) then
    throw (JsError "A valid meeting id should be provided")
  else if negb (truthy params) || (length (keys h params) =? 0)%nat then
    throw (JsError "At least one update parameter should be provided")
  else
    let callback := or_noop callback in
    ajax {| url := "/api/meeting/" +:+ to_str meetingId;
            type_ := Some "POST";
            data := Some (DataValue params);
            success := λ data, [Invoke callback [ArgNull; ArgData data]];
            error := λ jqXHR, [Invoke callback [ArgError (err_of jqXHR)]];
            statusCode := [] |}.

Definition startMeeting (meetingId : jsval) (callback : callback)
  : ST net unit :=
  if negb (truthy meetingId) then
    throw (JsError "A valid meeting id should be provided")
  else
    let callback := or_noop callback in
    ajax {| url := "/api/meeting/" +:+ to_str meetingId +:+ "/start";
            type_ := Some "POST";
            data := None;
            success := λ _, [Invoke callback [ArgNull]];
            error := λ jqXHR, [Invoke callback [ArgError (err_of jqXHR)]];
            statusCode := [] |}.

Definition deleteMeeting (meetingId : jsval) (callback : callback)
  : ST net unit :=
  if negb (truthy meetingId) then
    throw (JsError "A valid meeting id should be provided")
  else
    let callback := or_noop callback in
    ajax {| url := "/api/meeting/" +:+ to_str meetingId;
            type_ := Some "DELETE";
            data := None;
            success := λ _, [Invoke callback [ArgNull]];
            error := λ jqXHR, [Invoke callback [ArgError (err_of jqXHR)]];
            statusCode := [] |}.

Definition getMembers (meetingId start limit : jsval) (callback : callback)
  : ST net unit :=
  if negb (truthy meetingId) then
    throw (JsError "A valid meeting id should be provided")
  else
    let data := [("start", start); ("limit", limit)] in
    ajax {| url := "/api/meeting/" +:+ to_str meetingId +:+ "/members";
            type_ := None;
            data := Some (DataLiteral data);
            success := λ data, [Invoke callback [ArgNull; ArgData data]];
            error := λ jqXHR, [Invoke callback [ArgError (err_of jqXHR)]];
            statusCode := [] |}.

Definition updateMembers (h : heap) (meetingId updatedMembers : jsval)
    (callback : callback) : ST net unit :=
  if negb (truthy meetingId) then
    throw (JsError "A valid meeting id should be provided")
  else if negb (truthy updatedMembers)
          || (length (keys h updatedMembers) =? 0)%nat then
    throw (JsError "The updatedMembers hash should contain at least 1 update")
  else
    let callback := or_noop callback in
    ajax {| url := "/api/meeting/" +:+ to_str meetingId +:+ "/members";
            type_ := Some "POST";
            data := Some (DataValue updatedMembers);
            success := λ _, [Invoke callback [ArgNull]];
            error := λ jqXHR, [Invoke callback [ArgError (err_of jqXHR)]];
            statusCode := [] |}.

Definition shareMeeting (h : heap) (meetingId principals : jsval)
    (callback : callback) : ST net unit :=
  if negb (truthy meetingId) then
    throw (JsError "A meeting id should be provided")
  else
    len <- lift (get_prop h principals "length") ;;
    if negb (truthy len) then
      throw (JsError "A user or group to share with should be provided")
    else
      let callback := or_noop callback in
      let data := [("members", principals)] in
      ajax {| url := "/api/meeting/" +:+ to_str meetingId +:+ "/share";
              type_ := Some "POST";
              data := Some (DataLiteral data);
              success := λ data, [Invoke callback [ArgNull; ArgData data]];
              error := λ jqXHR, [Invoke callback [ArgError (err_of jqXHR)]];
              statusCode := [] |}.

Definition getLibrary (principalId start limit : jsval) (callback : callback)
  : ST net unit :=
  if negb (truthy principalId) then
    throw (JsError "A user or group id should be provided")
  else
    let data := [("start", start); ("limit", limit)] in
    ajax {| url := "/api/meeting/library/" +:+ to_str principalId;
            type_ := None;
            data := Some (DataLiteral data);
            success := λ data, [Invoke callback [ArgNull; ArgData data]];
            error := λ jqXHR, [Invoke callback [ArgError (err_of jqXHR)]];
            statusCode := [] |}.

Definition deleteMeetingFromLibrary (principalId meetingId : jsval)
    (callback : callback) : ST net unit :=
  if negb (truthy principalId) then
    throw (JsError "A valid user or group id should be provided")
  else if negb (truthy meetingId) then
    throw (JsError "A valid meeting id should be provided")
  else
    let callback := or_noop callback in
    ajax {| url := "/api/meeting/library/" +:+ to_str principalId
                   +:+ "/" +:+ to_str meetingId;
            type_ := Some "DELETE";
            data := None;
            success := λ _, [Invoke callback [ArgNull]];
            error := λ jqXHR, [Invoke callback [ArgError (err_of jqXHR)]];
            statusCode := [] |}.

Definition endMeeting (meetingId : jsval) (callback : callback)
  : ST net unit :=
  if negb (truthy meetingId) then
    throw (JsError "A valid meeting id should be provided")
  else
    let callback := or_noop callback in
    ajax {| url := "/api/meeting/" +:+ to_str meetingId +:+ "/end";
            type_ := Some "GET";
            data := None;
            success := λ _, [Invoke callback [ArgNull]];
            error := λ jqXHR, [Invoke callback [ArgError (err_of jqXHR)]];
            statusCode := [] |}.

Definition infoMeeting (meetingId : jsval) (callback : callback)
  : ST net unit :=
  if negb (truthy meetingId) then
    throw (JsError "A valid meeting id should be provided")
  else
    let callback := or_noop callback in
    ajax {| url := "/api/meeting/" +:+ to_str meetingId +:+ "/info";
            type_ := Some "GET";
            data := None;
            success := λ response, [Invoke callback [ArgNull; ArgData response]];
            error := λ jqXHR,
              [Invoke callback [ArgError (err_of jqXHR); ArgNull]];
            statusCode := [] |}.

Definition getRecording (meetingId : jsval) (callback : callback)
  : ST net unit :=
  if negb (truthy meetingId) then
    throw (JsError "A valid meeting id should be provided")
  else
    let callback := or_noop callback in
    ajax {| url := "/api/recording/" +:+ to_str meetingId;
            type_ := Some "GET";
            data := None;
            success := λ response,
              [ConsoleInfo "Success";
               Invoke callback [ArgNull; ArgData response]];
            error := λ jqXHR,
              [Invoke callback [ArgError (err_of jqXHR); ArgNull]];
            statusCode := [(404%Z, [ConsoleInfo "No recording found"])] |}.

Definition updateRecording (recordingId publish : jsval)
    (callback : callback) : ST net unit :=
  if negb (truthy recordingId) then
    throw (JsError "A valid recording id should be provided")
  else
    let callback := or_noop callback in
    ajax {| url := "/api/recording/" +:+ to_str recordingId;
            type_ := Some "PATCH";
            data := Some (DataLiteral [("publish", js_not publish)]);
            success := λ response,
              [ConsoleInfo "Success";
               Invoke callback [ArgNull; ArgData response]];
            error := λ jqXHR,
              [ConsoleInfo "Error";
               Invoke callback [ArgError (err_of jqXHR); ArgNull]];
            statusCode := [] |}.

Definition deleteRecording (recordingId : jsval) (callback : callback)
  : ST net unit :=
  if negb (truthy recordingId) then
    throw (JsError "A valid recording id should be provided")
  else
    let callback := or_noop callback in
    ajax {| url := "/api/recording/" +:+ to_str recordingId;
            type_ := Some "DELETE";
            data := None;
            success := λ response,
              [ConsoleInfo "Success";
               Invoke callback [ArgNull; ArgData response]];
            error := λ jqXHR,
              [ConsoleInfo "Error";
               Invoke callback [ArgError (err_of jqXHR); ArgNull]];
            statusCode := [] |}.

Definition getInvitations (meetingId : jsval) (callback : callback)
  : ST net unit :=
  if negb (truthy meetingId) then
    throw (JsError "A valid meeting id should be provided")
  else
    ajax {| url := "/api/meeting/" +:+ to_str meetingId +:+ "/invitations";
            type_ := None;
            data := None;
            success := λ data, [Invoke callback [ArgNull; ArgData data]];
            error := λ jqXHR, [Invoke callback [ArgError (err_of jqXHR)]];
            statusCode := [] |}.

Definition resendInvitation (meetingId email : jsval) (callback : callback)
  : ST net unit :=
  if negb (truthy meetingId) then
    throw (JsError "A valid meeting id should be provided")
  else
    ajax {| url := "/api/meeting/" +:+ to_str meetingId +:+ "/invitations/"
                   +:+ to_str email +:+ "/resend";
            type_ := Some "POST";
            data := None;
            success := λ _, [Invoke callback []];
            error := λ jqXHR, [Invoke callback [ArgError (err_of jqXHR)]];
            statusCode := [] |}.

(** A call of the client: the operation and its arguments, the callback
    apart. *)
Inductive api_call :=
| GetMeeting (meetingId : jsval)
| CreateMeeting (displayName description record allModerators waitModerator
                   visibility managers members : jsval)
| UpdateMeeting (meetingId params : jsval)
| StartMeeting (meetingId : jsval)
| DeleteMeeting (meetingId : jsval)
| GetMembers (meetingId start limit : jsval)
| UpdateMembers (meetingId updatedMembers : jsval)
| ShareMeeting (meetingId principals : jsval)
| GetLibrary (principalId start limit : jsval)
| DeleteMeetingFromLibrary (principalId meetingId : jsval)
| EndMeeting (meetingId : jsval)
| InfoMeeting (meetingId : jsval)
| GetRecording (meetingId : jsval)
| UpdateRecording (recordingId publish : jsval)
| DeleteRecording (recordingId : jsval)
| GetInvitations (meetingId : jsval)
| ResendInvitation (meetingId email : jsval).

Definition invoke (h : heap) (c : api_call) (cb : callback) : ST net unit :=
  match c with
  | GetMeeting i => getMeeting i cb
  | CreateMeeting n d r a w v mg mb => createMeeting n d r a w v mg mb cb
  | UpdateMeeting i p => updateMeeting h i p cb
  | StartMeeting i => startMeeting i cb
  | DeleteMeeting i => deleteMeeting i cb
  | GetMembers i s l => getMembers i s l cb
  | UpdateMembers i u => updateMembers h i u cb
  | ShareMeeting i p => shareMeeting h i p cb
  | GetLibrary p s l => getLibrary p s l cb
  | DeleteMeetingFromLibrary p i => deleteMeetingFromLibrary p i cb
  | EndMeeting i => endMeeting i cb
  | InfoMeeting i => infoMeeting i cb
  | GetRecording i => getRecording i cb
  | UpdateRecording i p => updateRecording i p cb
  | DeleteRecording i => deleteRecording i cb
  | GetInvitations i => getInvitations i cb
  | ResendInvitation i e => resendInvitation i e cb
  end.

(** *** The transport completes a request *)

Inductive response :=
| Success (body : jsval)
| Failure (x : jqXHR).

Definition run_action (a : action) : ST net unit :=
  match a with
  | ConsoleInfo text =>
      modify (λ n, {| pending := pending n; calls := calls n;
                      console := console n ++ [text] |})
  | Invoke CbUndefined _ => throw JsTypeError
  | Invoke CbNoop _ => st_ret tt
  | Invoke (CbFunction k) args =>
      modify (λ n, {| pending := pending n; calls := calls n ++ [(k, args)];
                      console := console n |})
  end.

(** jQuery runs [success] or [error], then the [statusCode] entry of the
    status; the statuses of a success are not keys of any entry here. *)
Definition handlers_for (s : ajax_settings) (r : response) : list action :=
  match r with
  | Success body => success s body
  | Failure x =>
      error s x
      ++ concat (map snd (List.filter (λ e, (e.1 =? status x)%Z)
                                      (statusCode s)))
  end.

(** The request at position [i] of the requests in flight completes. *)
Definition complete (i : nat) (r : response) : ST net unit :=
  λ n, match pending n !! i with
       | None => (Ret tt, n)
       | Some s =>
           for_each run_action (handlers_for s r)
             {| pending := delete i (pending n);
                calls := calls n; console := console n |}
       end.

(** *** The contract in the words of the specification *)

Definition absent_or_empty (v : jsval) : Prop :=
  v = JUndefined ∨ v = JNull ∨ v = JStr "".

(** A map argument that is absent or has no entry. *)
Definition no_entries (h : heap) (v : jsval) : Prop :=
  v = JUndefined ∨ v = JNull ∨ ∃ l, v = JRef l ∧ obj_at h l = ∅.

(** A list argument that is absent or the empty array. *)
Definition no_elements (h : heap) (v : jsval) : Prop :=
  v = JUndefined ∨ v = JNull ∨ ∃ l, v = JRef l ∧ obj_at h l = array_obj [].

(** The call lacks a required identifier, topic or collection. The
    [email] of [resendInvitation] is not an identifier that the client
    checks; its documentation names the meeting id as the one cause of
    an error. *)
Definition lacks_required (h : heap) (c : api_call) : Prop :=
  match c with
  | GetMeeting i | StartMeeting i | DeleteMeeting i | GetMembers i _ _
  | EndMeeting i | InfoMeeting i | GetRecording i | UpdateRecording i _
  | DeleteRecording i | GetInvitations i | ResendInvitation i _
  | GetLibrary i _ _ => absent_or_empty i
  | CreateMeeting topic _ _ _ _ _ _ _ => absent_or_empty topic
  | UpdateMeeting i params => absent_or_empty i ∨ no_entries h params
  | UpdateMembers i updates => absent_or_empty i ∨ no_entries h updates
  | ShareMeeting i principals => absent_or_empty i ∨ no_elements h principals
  | DeleteMeetingFromLibrary p i => absent_or_empty p ∨ absent_or_empty i
  end.

(** The operations whose documentation marks the callback optional
    ([[callback]]); the five others declare it required. *)
Definition callback_optional (c : api_call) : bool :=
  match c with
  | GetMeeting _ | GetMembers _ _ _ | GetLibrary _ _ _ | GetInvitations _
  | ResendInvitation _ _ => false
  | _ => true
  end.

(** The arguments the callback is to receive for a response. *)
Definition reply (c : api_call) (r : response) : list cb_arg :=
  match r with
  | Success body =>
      match c with
      | StartMeeting _ | DeleteMeeting _ | UpdateMembers _ _
      | DeleteMeetingFromLibrary _ _ | EndMeeting _ => [ArgNull]
      | ResendInvitation _ _ => []
      | _ => [ArgNull; ArgData body]
      end
  | Failure x =>
      match c with
      | InfoMeeting _ | GetRecording _ | UpdateRecording _ _
      | DeleteRecording _ => [ArgError (err_of x); ArgNull]
      | _ => [ArgError (err_of x)]
      end
  end.

(** The traffic after one more request went out. *)
Definition issued (n : net) (s : ajax_settings) : net :=
  {| pending := pending n ++ [s]; calls := calls n; console := console n |}.

End Api.

(** ** The page controller ([ui/js/meeting.js]) *)

Module Page.

(** *** The location *)

(** The pieces of a string between the occurrences of a separator, as
    [split] gives them. *)
Fixpoint split_on (sep : ascii) (s : string) : list string :=
  match s with
  | EmptyString => [""]
  | String c r =>
      if Ascii.eqb c sep then "" :: split_on sep r
      else match split_on sep r with
           | [] => [String c ""]
           | w :: ws => String c w :: ws
           end
  end.

Fixpoint strip_leading (c : ascii) (s : string) : string :=
  match s with
  | EmptyString => ""
  | String a r => if Ascii.eqb a c then strip_leading c r else s
  end.

Fixpoint strip_trailing (c : ascii) (s : string) : string :=
  match s with
  | EmptyString => ""
  | String a r =>
      match strip_trailing c r with
      | EmptyString => if Ascii.eqb a c then "" else String a ""
      | r' => String a r'
      end
  end.

Definition segments (path : string) : list string :=
  split_on "/" (strip_trailing "/" (strip_leading "/" path)).

(** Modelled from the spec: [$.url().segment(n)], of the URL parser,
    which is not part of these sources. The path scheme
    [/meeting/<tenant>/<resource>] has the tenant as segment 2 and the
    resource as segment 3: the segments are the pieces of the path
    between slashes, leading and trailing slashes apart, counted from 1;
    a segment that does not exist is [undefined]. *)
Definition segment (path : string) (n : nat) : jsval :=
  match n with
  | O => JUndefined
  | S i => from_option JStr JUndefined (segments path !! i)
  end.

(** What the page is given: its location and [oae.data.me.id]. *)
Record env := { location_path : string; me_id : jsval }.

(** *** What the controller hands to the platform *)

Inductive target := Document | Window.

Inductive destination := AccessDenied | NotFound.

(** The page structure literal of [setUpNavigation]. *)
Record nav_widget := { name : string; settings : option jsval }.
Record nav_column := { width : string; widgets : list nav_widget }.
Record nav_page := {
  id : string;
  title : jsval;
  icon : string;
  closeNav : bool;
  class_ : string;
  layout : list nav_column
}.

Inductive trigger_data :=
| TData (v : jsval)
| TNavigation (lhNavPages : list nav_page) (baseUrl : string).

Inductive effect :=
| ETrigger (t : target) (event_name : string) (d : trigger_data)
| ERender (template : string) (meeting : jsval) (addLink : bool)
    (output : string)
| EEmpty (container : string)
| EInsertWidget (widget : string) (container : string) (widgetData : jsval)
| ERedirect (d : destination)
| EShowPage.

(** The arguments of [oae.api.push.subscribe], the message callback
    apart. *)
Record subscription := {
  resourceId : string;
  streamType : string;
  token : jsval;
  transformer : string;
  flag5 : bool;
  flag6 : bool
}.

(** The functions bound with [$(document).on] and [$(window).on]; the
    two delegated click handlers of the manage-access buttons are bound
    to DOM clicks and take no part in the custom events below. *)
Inductive doc_handler :=
| OnManageAccessDone
| OnEditMeetingDone
| OnContextGet.

Inductive win_handler :=
| OnLhnavigationReady (lhNavPages : list nav_page).

Record world := {
  store : heap;
  meetingProfile : jsval;
  on_document : list (string * doc_handler);
  on_window : list (string * win_handler);
  subscriptions : list subscription;
  topic_container : list (string * jsval);   (* #lhnavigation-widget-meeting *)
  clip_container : option (jsval * bool);    (* #meeting-clip-container *)
  traffic : Api.net;
  trace : list effect
}.

Definition blank (h : heap) : world :=
  {| store := h; meetingProfile := JUndefined; on_document := [];
     on_window := []; subscriptions := []; topic_container := [];
     clip_container := None; traffic := Api.no_traffic; trace := [] |}.

Definition set_store (h : heap) (w : world) : world :=
  {| store := h; meetingProfile := meetingProfile w;
     on_document := on_document w; on_window := on_window w;
     subscriptions := subscriptions w; topic_container := topic_container w;
     clip_container := clip_container w; traffic := traffic w;
     trace := trace w |}.

Definition set_meetingProfile (p : jsval) (w : world) : world :=
  {| store := store w; meetingProfile := p;
     on_document := on_document w; on_window := on_window w;
     subscriptions := subscriptions w; topic_container := topic_container w;
     clip_container := clip_container w; traffic := traffic w;
     trace := trace w |}.

Definition set_on_document (b : list (string * doc_handler)) (w : world)
  : world :=
  {| store := store w; meetingProfile := meetingProfile w;
     on_document := b; on_window := on_window w;
     subscriptions := subscriptions w; topic_container := topic_container w;
     clip_container := clip_container w; traffic := traffic w;
     trace := trace w |}.

Definition set_on_window (b : list (string * win_handler)) (w : world)
  : world :=
  {| store := store w; meetingProfile := meetingProfile w;
     on_document := on_document w; on_window := b;
     subscriptions := subscriptions w; topic_container := topic_container w;
     clip_container := clip_container w; traffic := traffic w;
     trace := trace w |}.

Definition set_subscriptions (s : list subscription) (w : world) : world :=
  {| store := store w; meetingProfile := meetingProfile w;
     on_document := on_document w; on_window := on_window w;
     subscriptions := s; topic_container := topic_container w;
     clip_container := clip_container w; traffic := traffic w;
     trace := trace w |}.

Definition set_topic_container (c : list (string * jsval)) (w : world)
  : world :=
  {| store := store w; meetingProfile := meetingProfile w;
     on_document := on_document w; on_window := on_window w;
     subscriptions := subscriptions w; topic_container := c;
     clip_container := clip_container w; traffic := traffic w;
     trace := trace w |}.

Definition set_clip_container (c : option (jsval * bool)) (w : world)
  : world :=
  {| store := store w; meetingProfile := meetingProfile w;
     on_document := on_document w; on_window := on_window w;
     subscriptions := subscriptions w; topic_container := topic_container w;
     clip_container := c; traffic := traffic w; trace := trace w |}.

Definition set_traffic (n : Api.net) (w : world) : world :=
  {| store := store w; meetingProfile := meetingProfile w;
     on_document := on_document w; on_window := on_window w;
     subscriptions := subscriptions w; topic_container := topic_container w;
     clip_container := clip_container w; traffic := n; trace := trace w |}.

Definition set_trace (t : list effect) (w : world) : world :=
  {| store := store w; meetingProfile := meetingProfile w;
     on_document := on_document w; on_window := on_window w;
     subscriptions := subscriptions w; topic_container := topic_container w;
     clip_container := clip_container w; traffic := traffic w; trace := t |}.

Abbreviation M := (ST world).

Definition emit (e : effect) : M unit :=
  modify (λ w, set_trace (trace w ++ [e]) w).

(** Run a command of the API client on the page's connection. *)
Definition on_traffic {A} (m : ST Api.net A) : M A :=
  λ w, let (o, n) := m (traffic w) in (o, set_traffic n w).

(** *** The event bus *)

(** An event name is a type followed by namespaces, separated by dots. *)

Definition event_type (n : string) : string := hd "" (split_on "." n).
Definition namespaces (n : string) : list string := tl (split_on "." n).

Fixpoint remove_one (x : string) (l : list string) : option (list string) :=
  match l with
  | [] => None
  | y :: l' =>
      if String.eqb x y then Some l'
      else option_map (cons y) (remove_one x l')
  end.

Fixpoint included (xs ys : list string) : bool :=
  match xs with
  | [] => true
  | x :: xs' =>
      match remove_one x ys with
      | Some ys' => included xs' ys'
      | None => false
      end
  end.

(** Modelled from the spec: [on] and [trigger] of the event bus
    (jQuery), which is not part of these sources. A reply under a name
    scoped to a recipient is visible to that recipient only, a reply
    under the plain name to all listeners: a triggered name runs the
    handlers bound to the same type whose namespaces include the
    namespaces of the triggered name, each as often as it is triggered.
    An event triggered on the document goes on to the window. This is
    how jQuery reads names whose parts are plain; see [plain_name]. *)
Definition fires (bound triggered : string) : bool :=
  String.eqb (event_type bound) (event_type triggered)
  && included (namespaces triggered) (namespaces bound).

(** A letter, a digit, a hyphen or an underscore. *)
Definition plain_char (c : ascii) : bool :=
  let n := N_of_ascii c in
  ((48 <=? n) && (n <=? 57) || (65 <=? n) && (n <=? 90)
   || (97 <=? n) && (n <=? 122) || (n =? 45) || (n =? 95))%N.

Fixpoint plain (s : string) : bool :=
  match s with
  | EmptyString => true
  | String c r => plain_char c && plain r
  end.

(** A part of a name: plain and not empty. *)
Definition plain_part (part : string) : bool :=
  negb (String.eqb part "") && plain part.

(** The names that the model of the bus covers: every part between the
    dots is plain and not empty. [trigger] makes a regular expression
    of the namespaces it is given, so that with other characters in
    them it throws a SyntaxError or matches by the rules of regular
    expressions, and it reads an empty namespace as none; the model
    does not follow it there. *)
Definition plain_name (event_name : string) : bool :=
  forallb plain_part (split_on "." event_name).

(** Whether a listener bound under the name [bound] hears an event
    triggered under the name [triggered], for the names that the model
    covers. *)
Definition hears (bound triggered : string) : option bool :=
  if plain_name bound && plain_name triggered
  then Some (fires bound triggered)
  else None.

(** [(length - 1) in obj], the last element of an array-like object, for
    a [length] above zero. *)
Definition has_last (o : jsobj) (len : Z) : bool :=
  bool_decide (is_Some (o !! pretty (Z.to_nat len - 1)%nat)).

(** What jQuery takes for a list ([isArraylike]): an object whose
    [length] is zero, or a number above zero with a last element. The
    objects of the heap are data, not functions, windows or elements of
    the page, for which jQuery has rules of their own. *)
Definition array_like (o : jsobj) : option nat :=
  match o !! "length" with
  | Some (JNum len) =>
      if (len =? 0)%Z then Some O
      else if (0 <? len)%Z && has_last o len then Some (Z.to_nat len)
      else None
  | _ => None
  end.

(** The handler parameters of [trigger(name, data)], which are
    [jQuery.makeArray(data)]: none for a missing [data], the elements of
    an array-like object, and the value itself otherwise. *)
Definition trigger_args (h : heap) (data : jsval) : list jsval :=
  match data with
  | JUndefined | JNull => []
  | JRef l =>
      match array_like (obj_at h l) with
      | Some len =>
          map (λ j : nat, default JUndefined (obj_at h l !! pretty j))
            (seq 0 len)
      | None => [data]
      end
  | JBool _ | JNum _ | JStr _ => [data]
  end.

Definition param (args : list jsval) (i : nat) : jsval :=
  nth i args JUndefined.

Definition out_of_fuel {A} : M A := λ w, (OutOfFuel, w).
Definition not_modelled {A} : M A := λ w, (NotModelled, w).

Section Controller.

Variable E : env.

(** ['d:' + $.url().segment(2) + ':' + $.url().segment(3)] *)
Definition meetingId : string :=
  "d:" +:+ to_str (segment (location_path E) 2) +:+ ":"
  +:+ to_str (segment (location_path E) 3).

(** ['/meeting/' + $.url().segment(2) + '/' + $.url().segment(3)] *)
Definition baseUrl : string :=
  "/meeting/" +:+ to_str (segment (location_path E) 2) +:+ "/"
  +:+ to_str (segment (location_path E) 3).

(** [$(window).trigger(name, data)], [fuel] bounding the nesting of
    handlers that trigger events themselves. *)
Fixpoint dispatch_window (fuel : nat) (event_name : string) : M unit :=
  match fuel with
  | O => out_of_fuel
  | S fuel' =>
      if negb (plain_name event_name) then not_modelled
      else
        bound <- gets on_window ;;
        for_each
          (λ b : string * win_handler,
             match b.2 with
             | OnLhnavigationReady lhNavPages =>
                 emit (ETrigger Window "oae.trigger.lhnavigation"
                         (TNavigation lhNavPages baseUrl)) ;;;
                 dispatch_window fuel' "oae.trigger.lhnavigation"
             end)
          (List.filter (λ b, fires b.1 event_name) bound)
  end.

Definition trigger_window (fuel : nat) (event_name : string)
    (d : trigger_data) : M unit :=
  emit (ETrigger Window event_name d) ;;;
  dispatch_window fuel event_name.

(** [oae.api.util.template().render($(template), data, $(output))] with
    [data = {'meeting': meetingProfile, 'displayOptions': {'addLink':
    false}}] *)
Definition setUpClip : M unit :=
  p <- gets meetingProfile ;;
  emit (ERender "#meeting-clip-template" p false "#meeting-clip-container") ;;;
  modify (set_clip_container (Some (p, false))).

(** Modelled from the spec: [oae.api.widget.insertWidget], of the widget
    facility, which is not part of these sources; it puts one instance
    of the named widget, configured with [widgetData], into the
    container. *)
Definition insertWidget (widget container : string) (widgetData : jsval)
  : M unit :=
  emit (EInsertWidget widget container widgetData) ;;;
  modify (λ w, set_topic_container (topic_container w ++ [(widget, widgetData)]) w).

Definition refreshMeetingTopic : M unit :=
  emit (EEmpty "#lhnavigation-widget-meeting") ;;;
  modify (set_topic_container []) ;;;
  p <- gets meetingProfile ;;
  insertWidget "meeting" "#lhnavigation-widget-meeting" p.

Definition refreshMeetingProfile (updatedMeeting : jsval) : M unit :=
  modify (set_meetingProfile updatedMeeting) ;;;
  refreshMeetingTopic ;;;
  setUpClip.

(** The body of a handler bound on the document; [trigger] is
    [$(document).trigger]. *)
Definition doc_handler_body (trigger : string → jsval → M unit)
    (f : doc_handler) (args : list jsval) : M unit :=
  match f with
  | OnManageAccessDone => setUpClip
  | OnEditMeetingDone => refreshMeetingProfile (param args 0)
  | OnContextGet =>
      let widgetId := param args 0 in
      if truthy widgetId then
        p <- gets meetingProfile ;;
        trigger ("oae.context.send." +:+ to_str widgetId) p
      else
        p <- gets meetingProfile ;;
        trigger "oae.context.send" p
  end.

Fixpoint dispatch_document (fuel : nat) (event_name : string)
    (args : list jsval) : M unit :=
  match fuel with
  | O => out_of_fuel
  | S fuel' =>
      if negb (plain_name event_name) then not_modelled
      else
        bound <- gets on_document ;;
        above <- gets on_window ;;
        for_each
          (λ b : string * doc_handler,
             doc_handler_body
               (λ n v, emit (ETrigger Document n (TData v)) ;;;
                       h <- gets store ;;
                       dispatch_document fuel' n (trigger_args h v))
               b.2 args)
          (List.filter (λ b, fires b.1 event_name) bound) ;;;
        for_each
          (λ b : string * win_handler,
             match b.2 with
             | OnLhnavigationReady lhNavPages =>
                 trigger_window fuel' "oae.trigger.lhnavigation"
                   (TNavigation lhNavPages baseUrl)
             end)
          (List.filter (λ b, fires b.1 event_name) above)
  end.

Definition trigger_document (fuel : nat) (event_name : string) (v : jsval)
  : M unit :=
  emit (ETrigger Document event_name (TData v)) ;;;
  h <- gets store ;;
  dispatch_document fuel event_name (trigger_args h v).

(** The page structure [lhNavPages] of [setUpNavigation]. *)
Definition lhNavPages (displayName profile : jsval) : list nav_page :=
  [ {| id := "meeting";
       title := displayName;
       icon := "fa-video-camera";
       closeNav := true;
       class_ := "hide";
       layout :=
         [ {| width := "col-md-12";
              widgets :=
                [ {| name := "meeting"; settings := Some profile |} ] |};
           {| width := "col-md-12";
              widgets := [ {| name := "comments"; settings := None |} ] |} ]
    |} ].

Definition setUpNavigation (fuel : nat) : M unit :=
  p <- gets meetingProfile ;;
  h <- gets store ;;
  displayName <- lift (get_prop h p "displayName") ;;
  let lhNavPages := lhNavPages displayName p in
  trigger_window fuel "oae.trigger.lhnavigation"
    (TNavigation lhNavPages baseUrl) ;;;
  modify (λ w, set_on_window
                 (on_window w
                  ++ [("oae.ready.lhnavigation", OnLhnavigationReady lhNavPages)])
                 w).

Definition setUpContext (fuel : nat) : M unit :=
  modify (λ w, set_on_document
                 (on_document w ++ [("oae.context.get", OnContextGet)]) w) ;;;
  p <- gets meetingProfile ;;
  trigger_document fuel "oae.context.send" p.

Definition supportedActivities : list jsval :=
  [JStr "meeting-update"; JStr "meeting-update-visibility"].

(** [_.contains(list, v)] *)
Definition contains (l : list jsval) (v : jsval) : bool :=
  existsb (strict_eq v) l.

(** [obj.p = meetingProfile.p] *)
Definition copy_from_profile (obj : jsval) (p : string) : M unit :=
  profile <- gets meetingProfile ;;
  h <- gets store ;;
  v <- lift (get_prop h profile p) ;;
  h' <- lift (set_prop h obj p v) ;;
  modify (set_store h').

(** [activity.object] *)
Definition object_of (activity : jsval) : M jsval :=
  h <- gets store ;;
  lift (get_prop h activity "object").

(** The message callback given to [oae.api.push.subscribe]; the
    activities are the elements of the array it is given. *)
Definition on_activities (fuel : nat) (activities : list jsval) : M unit :=
  let activity := hd JUndefined activities in
  h <- gets store ;;
  actor <- lift (get_prop h activity "actor") ;;
  id <- lift (get_prop h actor "id") ;;
  if negb (strict_eq id (me_id E)) then
    activityType <- lift (get_prop h activity "oae:activityType") ;;
    if contains supportedActivities activityType then
      (object <- object_of activity ;; copy_from_profile object "canShare") ;;;
      (object <- object_of activity ;; copy_from_profile object "canPost") ;;;
      (object <- object_of activity ;; copy_from_profile object "isManager") ;;;
      object <- object_of activity ;;
      trigger_document fuel "oae.editmeeting.done" object
    else st_ret tt
  else st_ret tt.

Definition setUpPushNotifications : M unit :=
  p <- gets meetingProfile ;;
  h <- gets store ;;
  signature <- lift (get_prop h p "signature") ;;
  modify (λ w, set_subscriptions
                 (subscriptions w
                  ++ [ {| resourceId := meetingId; streamType := "activity";
                          token := signature; transformer := "internal";
                          flag5 := false; flag6 := false |} ])
                 w).

(** The callback [function(err, profile)] given to [getMeeting]; the
    client passes an error object or [null] first. *)
Definition on_profile (fuel : nat) (err : option Api.api_error)
    (profile : jsval) : M unit :=
  match err with
  | Some err =>
      if (Api.code err =? 401)%Z then emit (ERedirect AccessDenied)
      else emit (ERedirect NotFound)
  | None =>
      modify (set_meetingProfile profile) ;;;
      setUpClip ;;;
      setUpNavigation fuel ;;;
      setUpContext fuel ;;;
      emit EShowPage ;;;
      setUpPushNotifications
  end.

Definition getMeetingProfile : M unit :=
  on_traffic (Api.getMeeting (JStr meetingId) (Api.CbFunction "getMeetingProfile")).

(** The body of the module: its variables, the handlers bound while it
    loads, and the initial fetch. *)
Definition page_load : M unit :=
  modify (set_meetingProfile JNull) ;;;
  modify (λ w, set_on_document
                 (on_document w ++ [("oae.manageaccess.done", OnManageAccessDone)])
                 w) ;;;
  modify (λ w, set_on_document
                 (on_document w ++ [("oae.editmeeting.done", OnEditMeetingDone)])
                 w) ;;;
  getMeetingProfile.

(** *** What happens to the page *)

Inductive event :=
| TransportCompletes (i : nat) (r : Api.response)
| PushMessage (activities : list jsval)
| Triggered (t : target) (event_name : string) (args : list jsval).

Definition err_param (args : list Api.cb_arg) : option Api.api_error :=
  match args with
  | Api.ArgError e :: _ => Some e
  | _ => None
  end.

Definition value_param (args : list Api.cb_arg) (i : nat) : jsval :=
  match args !! i with
  | Some (Api.ArgData d) => d
  | Some Api.ArgNull => JNull
  | _ => JUndefined
  end.

Definition run_callback (fuel : nat) (c : string * list Api.cb_arg) : M unit :=
  if String.eqb c.1 "getMeetingProfile" then
    on_profile fuel (err_param c.2) (value_param c.2 1)
  else st_ret tt.

Definition step (fuel : nat) (ev : event) : M unit :=
  match ev with
  | TransportCompletes i r =>
      seen <- gets (λ w, length (Api.calls (traffic w))) ;;
      on_traffic (Api.complete i r) ;;;
      invoked <- gets (λ w, drop seen (Api.calls (traffic w))) ;;
      for_each (run_callback fuel) invoked
  | PushMessage activities =>
      subs <- gets subscriptions ;;
      for_each (λ _, on_activities fuel activities) subs
  | Triggered Document event_name args =>
      dispatch_document fuel event_name args
  | Triggered Window event_name _ =>
      dispatch_window fuel event_name
  end.

End Controller.

(** *** The two states of the page *)

Definition doc_table : list (string * doc_handler) :=
  [("oae.manageaccess.done", OnManageAccessDone);
   ("oae.editmeeting.done", OnEditMeetingDone);
   ("oae.context.get", OnContextGet)].

(** The handlers and the subscription that the one-time setup leaves. *)
Definition wired (w : world) : Prop :=
  on_document w = doc_table
  ∧ (∃ lhNavPages,
       on_window w = [("oae.ready.lhnavigation", OnLhnavigationReady lhNavPages)])
  ∧ (∃ s, subscriptions w = [s]).

(** Loaded: set up, with a profile object in the cache. *)
Definition loaded (w : world) : Prop :=
  wired w ∧ ∃ l, meetingProfile w = JRef l.

(** Awaiting the initial load: the state in which [page_load] leaves a
    blank page. *)
Definition awaiting (E : env) (h : heap) : world :=
  (page_load E (blank h)).2.

(** A path segment or a widget name: not empty, without the separator. *)
Fixpoint free_of (c : ascii) (s : string) : bool :=
  match s with
  | EmptyString => true
  | String a r => negb (Ascii.eqb a c) && free_of c r
  end.

Definition simple (c : ascii) (s : string) : Prop :=
  s ≠ "" ∧ free_of c s = true.

(** The permission flags of the viewing user, which an activity does
    not carry. *)
Definition own_flags : list string := ["canShare"; "canPost"; "isManager"].

(** [null] or [undefined]: a value without properties. *)
Definition nullish (v : jsval) : bool :=
  match v with
  | JNull | JUndefined => true
  | _ => false
  end.

(** [activity.actor.id] *)
Definition actor_id (h : heap) (activity : jsval) : outcome jsval :=
  match get_prop h activity "actor" with
  | Ret actor => get_prop h actor "id"
  | o => o
  end.

(** An activity of another user and of a supported type. *)
Definition qualifies (E : env) (h : heap) (activity : jsval) : Prop :=
  ∃ id activityType,
    actor_id h activity = Ret id ∧ id ≠ me_id E
    ∧ get_prop h activity "oae:activityType" = Ret activityType
    ∧ activityType ∈ supportedActivities.

(** The heap after [obj.p = profile.p]. *)
Definition copied (h : heap) (profile obj : loc) (p : string) : heap :=
  <[obj := <[p := default JUndefined (obj_at h profile !! p)]> (obj_at h obj)]> h.

(** The page after a refresh with profile [v]. *)
Definition refreshed (v : jsval) (w : world) : world :=
  set_trace
    (trace w ++ [EEmpty "#lhnavigation-widget-meeting";
                 EInsertWidget "meeting" "#lhnavigation-widget-meeting" v;
                 ERender "#meeting-clip-template" v false
                   "#meeting-clip-container"])
    (set_clip_container (Some (v, false))
       (set_topic_container [("meeting", v)]
          (set_meetingProfile v w))).

(** The page after the current profile went out under [event_name]. *)
Definition announced (event_name : string) (w : world) : world :=
  set_trace
    (trace w ++ [ETrigger Document event_name (TData (meetingProfile w))]) w.

(** *** A sample page *)

Definition sample_env : env :=
  {| location_path := "/meeting/cam/xyz"; me_id := JStr "u:cam:me" |}.

Definition sample_heap : heap :=
  {[ 1%positive := ({[ "displayName" := JStr "Standup";
                       "canShare" := JBool true;
                       "signature" := JStr "sig" ]} : jsobj);
     2%positive := ({[ "displayName" := JStr "Retro";
                       "canShare" := JBool false ]} : jsobj);
     3%positive := ({[ "actor" := JRef 4;
                       "oae:activityType" := JStr "meeting-update";
                       "object" := JRef 2 ]} : jsobj);
     4%positive := ({[ "id" := JStr "u:cam:other" ]} : jsobj) ]}.

Definition sample_loaded : world :=
  (step sample_env 2 (TransportCompletes 0 (Api.Success (JRef 1)))
     (awaiting sample_env sample_heap)).2.

Definition sample_activity : jsval := JRef 3.

End Page.

(** ** Locations *)

Module Location.

(** The path that has the given segments: each one after a slash. *)
Definition path_of (segs : list string) : string :=
  foldr (λ s r, "/" +:+ s +:+ r) "" segs.

End Location.

(** ** Manage access ([getManageAccessData] of [ui/js/meeting.js]) *)

Module Access.
Import Page.

(** The functions of the API client that the controller hands over as
    values. *)
Inductive api_function := UpdateMembersFn | UpdateMeetingFn.

(** [f(meetingId, argument, callback)] *)
Definition call (h : heap) (f : api_function) (meetingId argument : jsval)
    (callback : Api.callback) : ST Api.net unit :=
  match f with
  | UpdateMembersFn => Api.updateMembers h meetingId argument callback
  | UpdateMeetingFn => Api.updateMeeting h meetingId argument callback
  end.

Record role := { role_id : string; role_name : string }.

(** The object given to the manageaccess widget. *)
Record widget_data := {
  contextProfile : jsval;
  messages : list (string * string);
  defaultRole : string;
  roles : list role;
  getMembersURL : string;
  setMembers : api_function;
  setVisibility : api_function
}.

Section Services.

(** [oae.api.i18n.translate(key, null, variables)] and
    [oae.api.util.security().encodeForHTML], of the platform. *)
Variable translate : string → list (string * string) → string.
Variable encodeForHTML : jsval → string.

Definition getManageAccessData : M widget_data :=
  p <- gets meetingProfile ;;
  h <- gets store ;;
  tenant <- lift (get_prop h p "tenant") ;;
  loggedin <- lift (get_prop h tenant "displayName") ;;
  tenant' <- lift (get_prop h p "tenant") ;;
  loggedin' <- lift (get_prop h tenant' "displayName") ;;
  id <- lift (get_prop h p "id") ;;
  st_ret
    {| contextProfile := p;
       messages :=
         [("accessNotUpdatedBody",
           translate "__MSG__MEETING_ACCESS_COULD_NOT_BE_UPDATED__" []);
          ("accessNotUpdatedTitle",
           translate "__MSG__MEETING_ACCESS_NOT_UPDATED__" []);
          ("accessUpdatedBody",
           translate "__MSG__MEETING_ACCESS_SUCCESSFULLY_UPDATED__" []);
          ("accessUpdatedTitle",
           translate "__MSG__MEETING_ACCESS_UPDATED__" []);
          ("membersTitle", translate "__MSG__SHARE_WITH__" []);
          ("private", translate "__MSG__PRIVATE__" []);
          ("loggedin", encodeForHTML loggedin);
          ("public", translate "__MSG__PUBLIC__" []);
          ("privateDescription",
           translate "__MSG__MEETING_PRIVATE_DESCRIPTION__" []);
          ("loggedinDescription",
           translate "__MSG__MEETING_LOGGEDIN_DESCRIPTION__"
             [("tenant", encodeForHTML loggedin')]);
          ("publicDescription",
           translate "__MSG__MEETING_PUBLIC_DESCRIPTION__" [])];
       defaultRole := "member";
       roles :=
         [ {| role_id := "member";
              role_name := translate "__MSG__CAN_VIEW__" [] |};
           {| role_id := "manager";
              role_name := translate "__MSG__CAN_MANAGE__" [] |} ];
       getMembersURL := "/api/meeting/" +:+ to_str id +:+ "/members";
       setMembers := UpdateMembersFn;
       setVisibility := UpdateMeetingFn |}.

End Services.

(** *** A sample page with a tenant *)

Definition sample_tenant_heap : heap :=
  {[ 1%positive := ({[ "id" := JStr "d:cam:xyz";
                       "displayName" := JStr "Standup";
                       "tenant" := JRef 3 ]} : jsobj);
     2%positive := ({[ "u:cam:bob" := JStr "manager" ]} : jsobj);
     3%positive := ({[ "displayName" := JStr "Cambridge" ]} : jsobj) ]}.

Definition sample_tenant_page : world :=
  set_meetingProfile (JRef 1) (blank sample_tenant_heap).

End Access.

(** ** Sessions *)

Module Session.
Import Page.

(** The event loop: the events of a session are handled one after the
    other, and an exception ends the handling of its own event only. *)
Fixpoint run (E : env) (fuel : nat) (events : list event) (w : world)
  : world :=
  match events with
  | [] => w
  | ev :: events' => run E fuel events' (step E fuel ev w).2
  end.

End Session.

(** * Properties *)

(** ** The monad *)

Lemma bind_eq {S A B} (m : ST S A) (k : A → ST S B) s a s' :
  m s = (Ret a, s') → st_bind m k s = k a s'.
Proof. unfold st_bind. by intros ->. Qed.

Lemma bind_unit {S} (m : ST S unit) s : (m ;;; st_ret tt) s = m s.
Proof. unfold st_bind. by destruct (m s) as [[[]| | |] s']. Qed.

(** A property read throws a TypeError or gives a value. *)
Lemma get_prop_cases h v p :
  get_prop h v p = Throw JsTypeError ∨ ∃ x, get_prop h v p = Ret x.
Proof.
  destruct v; cbn; eauto. destruct (String.eqb p "length"); eauto.
Qed.

(** ** The API client *)

Section ApiContract.
Import Api.

Lemma falsy_absent v : absent_or_empty v → truthy v = false.
Proof. by intros [-> | [-> | ->]]. Qed.

Lemma keys_no_entries h v :
  no_entries h v → negb (truthy v) || (length (keys h v) =? 0)%nat = true.
Proof.
  intros [-> | [-> | (l & -> & Hl)]]; [done..|].
  cbn. by rewrite Hl, map_to_list_empty.
Qed.

Lemma length_no_elements h v :
  no_elements h v →
  get_prop h v "length" = Throw JsTypeError
  ∨ ∃ len, get_prop h v "length" = Ret len ∧ truthy len = false.
Proof.
  intros [-> | [-> | (l & -> & Hl)]]; [by left..|].
  right. exists (JNum 0). cbn. rewrite Hl. unfold array_obj.
  by rewrite lookup_insert_eq.
Qed.

Ltac unfold_op :=
  unfold invoke, getMeeting, createMeeting, updateMeeting, startMeeting,
    deleteMeeting, getMembers, updateMembers, shareMeeting, getLibrary,
    deleteMeetingFromLibrary, endMeeting, infoMeeting, getRecording,
    updateRecording, deleteRecording, getInvitations, resendInvitation.

(** The request issued last completes: its handlers run, and it is no
    longer in flight. *)
Lemma complete_last n s r :
  complete (length (pending n)) r
    {| pending := pending n ++ [s]; calls := calls n; console := console n |}
  = for_each run_action (handlers_for s r)
      {| pending := pending n; calls := calls n; console := console n |}.
Proof.
  unfold complete. cbn [pending calls console].
  rewrite list_lookup_middle by done.
  do 2 f_equal. induction (pending n); cbn; [done|]. by f_equal.
Qed.

(** A call that returns has passed its guards and issued its request. *)
Ltac accepted :=
  unfold_op; unfold st_bind, lift;
  repeat match goal with
  | |- context [truthy ?v] => destruct (truthy v); cbn [negb orb]
  | |- context [get_prop ?h ?v ?p] => destruct (get_prop h v p); cbn
  | |- context [(length ?l =? 0)%nat] => destruct (length l =? 0)%nat; cbn
  end; try discriminate;
  intros [= <-]; rewrite complete_last.

(** C4. An operation called without a required identifier, topic or
    collection (absent or empty) throws at once: no request is issued
    and the callback is not invoked, the transport and the record of
    invocations being as before. *)
Theorem missing_argument_fails_fast h c cb n :
  lacks_required h c → ∃ e, invoke h c cb n = (Throw e, n).
Proof.
  destruct c; cbn [lacks_required];
    first [ intros Hm%falsy_absent | intros [Hm%falsy_absent | Hm] ];
    unfold_op;
    try (rewrite Hm; cbn; eexists; reflexivity).
  - destruct (truthy meetingId); cbn [negb]; [|by eexists].
    rewrite (keys_no_entries _ _ Hm). by eexists.
  - destruct (truthy meetingId); cbn [negb]; [|by eexists].
    rewrite (keys_no_entries _ _ Hm). by eexists.
  - destruct (truthy meetingId); cbn [negb]; [|by eexists].
    unfold st_bind.
    destruct (length_no_elements _ _ Hm) as [-> | (len & -> & Hlen)]; cbn.
    + by eexists.
    + rewrite Hlen. by eexists.
  - destruct (truthy principalId); cbn [negb]; [|by eexists].
    rewrite (falsy_absent _ Hm). by eexists.
Qed.

Lemma missing_argument_fails_fast_witness :
  lacks_required ∅ (ShareMeeting (JStr "d:cam:xyz") JUndefined)
  ∧ ∃ e, invoke ∅ (ShareMeeting (JStr "d:cam:xyz") JUndefined)
           (CbFunction "done") no_traffic
         = (Throw e, no_traffic).
Proof.
  assert (lacks_required ∅ (ShareMeeting (JStr "d:cam:xyz") JUndefined)) as H.
  { right. by left. }
  split; [exact H|].
  exact (missing_argument_fails_fast ∅ _ (CbFunction "done") no_traffic H).
Defined.

(** C5, as the specification has it, fails: [resendInvitation] reports
    success by [callback()], so the first argument is [undefined], not
    [null]. *)
Lemma resendInvitation_success_without_arguments :
  (resendInvitation (JStr "d:cam:xyz") (JStr "a@b.c") (CbFunction "done")
     no_traffic).1 = Ret tt
  ∧ calls (complete 0 (Success (JStr "ok"))
             (resendInvitation (JStr "d:cam:xyz") (JStr "a@b.c")
                (CbFunction "done") no_traffic).2).2
    = [("done", [])]
  ∧ ¬ (∀ h c k n n1 body,
         invoke h c (CbFunction k) n = (Ret tt, n1) →
         ∃ n2 rest,
           complete (length (pending n)) (Success body) n1 = (Ret tt, n2)
           ∧ calls n2 = calls n ++ [(k, ArgNull :: rest)]).
Proof.
  split; [reflexivity|]. split; [reflexivity|]. intros H.
  destruct (H ∅ (ResendInvitation (JStr "d:cam:xyz") (JStr "a@b.c")) "done"
              no_traffic _ (JStr "ok") eq_refl) as (n2 & rest & Hc & Hn).
  vm_compute in Hc. injection Hc as <-. discriminate Hn.
Qed.

(** C5, amended. When the transport completes the request of an
    operation, the callback is invoked once, with the arguments of
    [reply]: on success [(null, body)], [(null)] for the operations that
    pass no body, and no argument for [resendInvitation]; on failure
    [({code, msg})], followed by [null] for [infoMeeting] and the
    recording operations. No request is issued in turn. *)
Theorem callback_invoked_once h c k n n1 r :
  invoke h c (CbFunction k) n = (Ret tt, n1) →
  ∃ n2, complete (length (pending n)) r n1 = (Ret tt, n2)
        ∧ calls n2 = calls n ++ [(k, reply c r)]
        ∧ pending n2 = pending n.
Proof.
  destruct c; accepted; destruct r as [body | x];
    cbn -[Z.eqb]; try destruct (404 =? status x)%Z;
    cbn; eexists; (split; [reflexivity|]); by cbn.
Qed.

Lemma callback_invoked_once_witness :
  ∃ n2, complete 0 (Failure {| status := 404; responseText := "gone" |})
          (getRecording (JStr "d:cam:xyz") (CbFunction "done") no_traffic).2
        = (Ret tt, n2)
        ∧ calls n2 = [("done", [ArgError {| code := 404; msg := "gone" |};
                                ArgNull])]
        ∧ pending n2 = [].
Proof.
  exact (callback_invoked_once ∅ (GetRecording (JStr "d:cam:xyz")) "done"
           no_traffic _ (Failure {| status := 404; responseText := "gone" |})
           eq_refl).
Defined.

(** C3, as the specification has it, fails: [getMeeting] called without
    a callback calls [undefined] when its request succeeds. *)
Lemma getMeeting_without_callback_throws :
  (getMeeting (JStr "d:cam:xyz") CbUndefined no_traffic).1 = Ret tt
  ∧ (complete 0 (Success (JStr "ok"))
       (getMeeting (JStr "d:cam:xyz") CbUndefined no_traffic).2).1
    = Throw JsTypeError
  ∧ ¬ (∀ h c n n1 r,
         invoke h c CbUndefined n = (Ret tt, n1) →
         ∃ n2, complete (length (pending n)) r n1 = (Ret tt, n2)).
Proof.
  split; [reflexivity|]. split; [reflexivity|]. intros H.
  destruct (H ∅ (GetMeeting (JStr "d:cam:xyz")) no_traffic _
              (Success (JStr "ok")) eq_refl) as (n2 & Hc).
  vm_compute in Hc. discriminate Hc.
Qed.

(** C3, amended. For the operations that document their callback as
    optional, a call without callback completes on success and on
    failure without invoking anything; the five operations that require
    a callback ([getMeeting], [getMembers], [getLibrary],
    [getInvitations], [resendInvitation]) use it as passed, and
    completing such a call made without one raises a TypeError. *)
Theorem optional_callback_defaults_to_noop h c n n1 r :
  invoke h c CbUndefined n = (Ret tt, n1) →
  (callback_optional c = true →
     ∃ n2, complete (length (pending n)) r n1 = (Ret tt, n2)
           ∧ calls n2 = calls n ∧ pending n2 = pending n)
  ∧ (callback_optional c = false →
     ∃ n2, complete (length (pending n)) r n1 = (Throw JsTypeError, n2)
           ∧ calls n2 = calls n).
Proof.
  destruct c; accepted; (split; [|discriminate]) || (split; [discriminate|]);
    intros _; destruct r as [body | x];
    cbn -[Z.eqb]; try destruct (404 =? status x)%Z;
    cbn; eexists; (split; [reflexivity|]); by cbn.
Qed.

Lemma optional_callback_defaults_to_noop_witness :
  ∃ n2, complete 0 (Success (JStr "ok"))
          (startMeeting (JStr "d:cam:xyz") CbUndefined no_traffic).2
        = (Ret tt, n2)
        ∧ calls n2 = [] ∧ pending n2 = [].
Proof.
  exact (proj1 (optional_callback_defaults_to_noop ∅
                  (StartMeeting (JStr "d:cam:xyz")) no_traffic _
                  (Success (JStr "ok")) eq_refl) eq_refl).
Defined.

(** C10. [updateRecording] sends a PATCH to the recording whose [publish]
    field is the negation of the [publish] argument: not the value the
    caller passed. *)
Theorem updateRecording_negates_publish recordingId (b : bool) cb n :
  truthy recordingId = true →
  ∃ s, updateRecording recordingId (JBool b) cb n
       = (Ret tt, {| pending := pending n ++ [s];
                     calls := calls n; console := console n |})
     ∧ type_ s = Some "PATCH"
     ∧ url s = "/api/recording/" +:+ to_str recordingId
     ∧ data s = Some (DataLiteral [("publish", JBool (negb b))])
     ∧ JBool (negb b) ≠ JBool b.
Proof.
  intros Hid. unfold updateRecording. rewrite Hid. cbn.
  eexists. split; [reflexivity|]. cbn. repeat split. by destruct b.
Qed.

Lemma updateRecording_negates_publish_witness :
  truthy (JStr "rec-1") = true
  ∧ ∃ s, updateRecording (JStr "rec-1") (JBool true) CbUndefined no_traffic
         = (Ret tt, {| pending := [s]; calls := []; console := [] |})
       ∧ type_ s = Some "PATCH"
       ∧ url s = "/api/recording/rec-1"
       ∧ data s = Some (DataLiteral [("publish", JBool false)])
       ∧ JBool false ≠ JBool true.
Proof.
  split; [reflexivity|].
  exact (updateRecording_negates_publish (JStr "rec-1") true CbUndefined
           no_traffic eq_refl).
Defined.

End ApiContract.

(** ** Strings: splitting at a separator *)

Lemma append_nil r : "" +:+ r = r.
Proof. reflexivity. Qed.

Lemma append_cons a s r : String a s +:+ r = String a (s +:+ r).
Proof. reflexivity. Qed.

Lemma append_assoc s r t : (s +:+ r) +:+ t = s +:+ (r +:+ t).
Proof.
  induction s as [|a s IH]; rewrite ?append_nil, ?append_cons; [done|].
  by rewrite IH.
Qed.

Section Splitting.
Import Page.

Lemma split_on_free c s : free_of c s = true → split_on c s = [s].
Proof.
  induction s as [|a r IH]; cbn [split_on free_of]; [done|].
  destruct (Ascii.eqb a c); cbn [negb andb]; [done|].
  intros H. by rewrite (IH H).
Qed.

Lemma split_on_app c s r :
  free_of c s = true → split_on c (s +:+ String c r) = s :: split_on c r.
Proof.
  induction s as [|a s IH]; rewrite ?append_nil, ?append_cons;
    cbn [split_on free_of].
  - by rewrite Ascii.eqb_refl.
  - destruct (Ascii.eqb a c); cbn [negb andb]; [done|].
    intros H. by rewrite (IH H).
Qed.

Lemma split_on_cons c s : ∃ x xs, split_on c s = x :: xs.
Proof.
  induction s as [|a s (x & xs & IH)]; cbn [split_on]; [by eauto|].
  destruct (Ascii.eqb a c); [by eauto|]. rewrite IH. by eauto.
Qed.

Lemma strip_trailing_free c s : free_of c s = true → strip_trailing c s = s.
Proof.
  induction s as [|a r IH]; cbn [strip_trailing free_of]; [done|].
  destruct (Ascii.eqb a c); cbn [negb andb]; [done|].
  intros H. rewrite (IH H). by destruct r.
Qed.

Lemma strip_trailing_app c s r :
  r ≠ "" → strip_trailing c r = r → strip_trailing c (s +:+ r) = s +:+ r.
Proof.
  intros Hr Hs.
  induction s as [|a s IH]; rewrite ?append_nil, ?append_cons;
    cbn [strip_trailing]; [done|].
  rewrite IH. destruct (s +:+ r) eqn:Heq; [|done].
  destruct s; rewrite ?append_nil, ?append_cons in Heq; congruence.
Qed.

Lemma segments_meeting tenant resource :
  simple "/" tenant → simple "/" resource →
  segments ("/meeting/" +:+ tenant +:+ "/" +:+ resource)
  = ["meeting"; tenant; resource].
Proof.
  intros [_ Ht] [Hr Hfr]. unfold segments.
  change (strip_leading "/" ("/meeting/" +:+ tenant +:+ "/" +:+ resource))
    with ("meeting/" +:+ tenant +:+ "/" +:+ resource).
  rewrite <- (append_assoc tenant), <- (append_assoc "meeting/").
  rewrite strip_trailing_app by auto using strip_trailing_free.
  rewrite !append_assoc.
  change ("meeting/" +:+ tenant +:+ "/" +:+ resource)
    with ("meeting" +:+ String "/" (tenant +:+ String "/" resource)).
  rewrite !split_on_app by done. by rewrite split_on_free.
Qed.

(** C8. At a location [/meeting/<tenant>/<resource>] the second and
    third path segments are the tenant and the resource, the meeting
    identifier is [d:<tenant>:<resource>] and the base path is
    [/meeting/<tenant>/<resource>]. *)
Theorem meeting_identity tenant resource me :
  simple "/" tenant → simple "/" resource →
  let E := {| location_path := "/meeting/" +:+ tenant +:+ "/" +:+ resource;
              me_id := me |} in
  segment (location_path E) 2 = JStr tenant
  ∧ segment (location_path E) 3 = JStr resource
  ∧ meetingId E = "d:" +:+ tenant +:+ ":" +:+ resource
  ∧ baseUrl E = "/meeting/" +:+ tenant +:+ "/" +:+ resource.
Proof.
  intros Ht Hr E. unfold meetingId, baseUrl, segment. subst E.
  cbn [location_path]. by rewrite segments_meeting.
Qed.

Lemma meeting_identity_witness :
  simple "/" "cam" ∧ simple "/" "xyz"
  ∧ meetingId sample_env = "d:cam:xyz"
  ∧ baseUrl sample_env = "/meeting/cam/xyz".
Proof.
  assert (simple "/" "cam") as Ht by (split; [discriminate | reflexivity]).
  assert (simple "/" "xyz") as Hr by (split; [discriminate | reflexivity]).
  split; [exact Ht|]. split; [exact Hr|].
  exact (proj2 (proj2 (meeting_identity "cam" "xyz" (JStr "u:cam:me") Ht Hr))).
Defined.

End Splitting.

(** ** The page controller: what its handlers do *)

Section PageBehaviour.
Import Page.

Lemma world_ext (w1 w2 : world) :
  store w1 = store w2 → meetingProfile w1 = meetingProfile w2 →
  on_document w1 = on_document w2 → on_window w1 = on_window w2 →
  subscriptions w1 = subscriptions w2 →
  topic_container w1 = topic_container w2 →
  clip_container w1 = clip_container w2 →
  traffic w1 = traffic w2 → trace w1 = trace w2 → w1 = w2.
Proof. destruct w1, w2; cbn; intros; by subst. Qed.

Lemma result_ext {A} (r : outcome A * world) a w' :
  r.1 = Ret a → r.2 = w' → r = (Ret a, w').
Proof. destruct r; cbn; intros; by subst. Qed.

Ltac open_world w H :=
  destruct w as [h p docs wins subs topic clip net tr];
  destruct H as (Hd & (pages & Hw) & (sub & Hs));
  cbn [on_document on_window subscriptions meetingProfile] in *; subst.

Ltac unfold_run :=
  lazy beta iota zeta delta
    [st_bind st_ret gets modify lift throw for_each List.filter fst snd
     step dispatch_document dispatch_window trigger_document trigger_window
     doc_handler_body refreshMeetingProfile refreshMeetingTopic insertWidget
     setUpClip setUpNavigation setUpContext setUpPushNotifications
     on_activities copy_from_profile on_profile run_callback
     emit out_of_fuel not_modelled on_traffic param refreshed announced
     object_of negb plain_name
     store meetingProfile on_document on_window subscriptions topic_container
     clip_container traffic trace
     set_store set_meetingProfile set_on_document set_on_window
     set_subscriptions set_topic_container set_clip_container set_traffic
     set_trace].

Ltac same_world :=
  apply result_ext;
  [ reflexivity
  | apply world_ext; unfold_run; rewrite <- ?app_assoc; reflexivity ].

Variable E : env.

Lemma awaiting_eq h :
  ∃ s, awaiting E h
  = {| store := h; meetingProfile := JNull;
       on_document := [("oae.manageaccess.done", OnManageAccessDone);
                       ("oae.editmeeting.done", OnEditMeetingDone)];
       on_window := []; subscriptions := []; topic_container := [];
       clip_container := None;
       traffic := {| Api.pending := [s]; Api.calls := []; Api.console := [] |};
       trace := [] |}
    ∧ Api.url s = "/api/meeting/" +:+ meetingId E
    ∧ Api.type_ s = None.
Proof. eexists. split; [reflexivity|]. done. Qed.

Lemma fetch_failure fuel h x :
  step E fuel (TransportCompletes 0 (Api.Failure x)) (awaiting E h)
  = (Ret tt,
     set_trace [ERedirect (if (Api.status x =? 401)%Z then AccessDenied else NotFound)]
       (set_traffic {| Api.pending := [];
                       Api.calls := [("getMeetingProfile", [Api.ArgError (Api.err_of x)])];
                       Api.console := [] |}
          (awaiting E h))).
Proof.
  transitivity
    ((on_profile E fuel (Some (Api.err_of x)) JUndefined ;;; st_ret tt)
       (set_traffic {| Api.pending := [];
                       Api.calls := [("getMeetingProfile", [Api.ArgError (Api.err_of x)])];
                       Api.console := [] |}
          (awaiting E h))); [reflexivity|].
  rewrite bind_unit. unfold on_profile. cbn [Api.code Api.err_of].
  by destruct (Api.status x =? 401)%Z.
Qed.

Lemma fetch_success fuel h l :
  step E (S fuel) (TransportCompletes 0 (Api.Success (JRef l))) (awaiting E h)
  = (Ret tt,
     {| store := h;
        meetingProfile := JRef l;
        on_document := doc_table;
        on_window :=
          [("oae.ready.lhnavigation",
            OnLhnavigationReady
              (lhNavPages (default JUndefined (obj_at h l !! "displayName"))
                 (JRef l)))];
        subscriptions :=
          [ {| resourceId := meetingId E; streamType := "activity";
               token := default JUndefined (obj_at h l !! "signature");
               transformer := "internal"; flag5 := false; flag6 := false |} ];
        topic_container := [];
        clip_container := Some (JRef l, false);
        traffic :=
          {| Api.pending := [];
             Api.calls := [("getMeetingProfile",
                            [Api.ArgNull; Api.ArgData (JRef l)])];
             Api.console := [] |};
        trace :=
          [ERender "#meeting-clip-template" (JRef l) false
             "#meeting-clip-container";
           ETrigger Window "oae.trigger.lhnavigation"
             (TNavigation
                (lhNavPages (default JUndefined (obj_at h l !! "displayName"))
                   (JRef l))
                (baseUrl E));
           ETrigger Document "oae.context.send" (TData (JRef l));
           EShowPage] |}).
Proof.
  vm_compute. reflexivity.
Qed.

Lemma refresh_eq v w : refreshMeetingProfile v w = (Ret tt, refreshed v w).
Proof. same_world. Qed.

Lemma dispatch_document_unfold fuel n args w :
  plain_name n = true →
  dispatch_document E (S fuel) n args w
  = (for_each (λ b : string * doc_handler,
                 doc_handler_body (trigger_document E fuel) b.2 args)
       (List.filter (λ b, fires b.1 n) (on_document w)) ;;;
     for_each (λ b : string * win_handler,
                 match b.2 with
                 | OnLhnavigationReady pages =>
                     trigger_window E fuel "oae.trigger.lhnavigation"
                       (TNavigation pages (baseUrl E))
                 end)
       (List.filter (λ b, fires b.1 n) (on_window w))) w.
Proof. intros Hn. cbn [dispatch_document]. by rewrite Hn. Qed.

Lemma dispatch_window_unfold fuel n w :
  plain_name n = true →
  dispatch_window E (S fuel) n w
  = for_each (λ b : string * win_handler,
                match b.2 with
                | OnLhnavigationReady pages =>
                    trigger_window E fuel "oae.trigger.lhnavigation"
                      (TNavigation pages (baseUrl E))
                end)
      (List.filter (λ b, fires b.1 n) (on_window w)) w.
Proof. intros Hn. cbn [dispatch_window]. by rewrite Hn. Qed.

Lemma dispatch_edit_done fuel args w :
  wired w →
  dispatch_document E (S fuel) "oae.editmeeting.done" args w
  = (Ret tt, refreshed (param args 0) w).
Proof.
  intros Hw. rewrite <- refresh_eq. open_world w Hw. reflexivity.
Qed.

Lemma split_send s :
  split_on "." ("oae.context.send." +:+ s)
  = "oae" :: "context" :: "send" :: split_on "." s.
Proof.
  change ("oae.context.send." +:+ s)
    with ("oae" +:+ String "."
            ("context" +:+ String "." ("send" +:+ String "." s))).
  by rewrite !split_on_app.
Qed.

(** The channel of a widget has a plain name when the widget has. *)
Lemma plain_name_send s :
  plain_name ("oae.context.send." +:+ s) = plain_name s.
Proof. unfold plain_name. by rewrite split_send. Qed.

(** No handler of the controller is bound to a channel scoped to a
    widget. *)
Lemma fires_own_directed s :
  fires "oae.manageaccess.done" ("oae.context.send." +:+ s) = false
  ∧ fires "oae.editmeeting.done" ("oae.context.send." +:+ s) = false
  ∧ fires "oae.context.get" ("oae.context.send." +:+ s) = false
  ∧ fires "oae.ready.lhnavigation" ("oae.context.send." +:+ s) = false.
Proof. unfold fires, event_type, namespaces. by rewrite split_send. Qed.

Lemma send_directed_idle fuel s args w :
  wired w → plain_name s = true →
  dispatch_document E (S fuel) ("oae.context.send." +:+ s) args w = (Ret tt, w).
Proof.
  intros Hw Hplain.
  rewrite dispatch_document_unfold by (by rewrite plain_name_send).
  open_world w Hw.
  destruct (fires_own_directed s) as (F1 & F2 & F3 & F4).
  unfold doc_table. cbn [List.filter fst on_document on_window].
  by rewrite F1, F2, F3, F4.
Qed.

Lemma dispatch_context_get fuel args w :
  wired w →
  (truthy (param args 0) = true → plain_name (to_str (param args 0)) = true) →
  dispatch_document E (S (S fuel)) "oae.context.get" args w
  = (Ret tt,
     announced (if truthy (param args 0)
                then "oae.context.send." +:+ to_str (param args 0)
                else "oae.context.send") w).
Proof.
  intros Hw Hplain. rewrite dispatch_document_unfold by reflexivity.
  assert (∀ n, wired (announced n w)) as Hw' by done.
  open_world w Hw.
  change (List.filter _ doc_table) with [("oae.context.get", OnContextGet)].
  change (List.filter _ [_]) with (@nil (string * win_handler)).
  cbn [for_each doc_handler_body snd]. rewrite !bind_unit.
  destruct (truthy (param args 0)).
  - erewrite bind_eq by reflexivity. unfold trigger_document, emit.
    erewrite bind_eq by reflexivity. erewrite bind_eq by reflexivity.
    apply (send_directed_idle fuel _ _ (announced _ _)); [apply Hw'|auto].
  - reflexivity.
Qed.

Lemma step_push fuel acts w :
  wired w → step E fuel (PushMessage acts) w = on_activities E fuel acts w.
Proof.
  intros (_ & _ & (s & Hs)). unfold step, st_bind at 1, gets. rewrite Hs.
  apply bind_unit.
Qed.

Lemma contains_elem_of l v : contains l v = true ↔ v ∈ l.
Proof.
  unfold contains, strict_eq. rewrite existsb_exists. split.
  - intros (x & Hx%list_elem_of_In & ->%bool_decide_eq_true). done.
  - intros Hv. exists v. split; [by apply list_elem_of_In|].
    by apply bool_decide_eq_true.
Qed.

(** *** What the push handler reads *)

Lemma actor_id_cases h a :
  actor_id h a = Throw JsTypeError ∨ ∃ id, actor_id h a = Ret id.
Proof.
  unfold actor_id.
  destruct (get_prop_cases h a "actor") as [-> | [actor ->]]; [by left|].
  apply get_prop_cases.
Qed.

Lemma actor_id_throws h a :
  actor_id h a = Throw JsTypeError
  ↔ nullish a = true
    ∨ ∃ actor, get_prop h a "actor" = Ret actor ∧ nullish actor = true.
Proof.
  unfold actor_id. split.
  - destruct (get_prop_cases h a "actor") as [Ha | [actor Ha]]; rewrite Ha.
    + intros _. left. by destruct a.
    + intros Hid. right. exists actor. split; [done|].
      by destruct actor.
  - intros [Ha | (actor & -> & Hn)]; [by destruct a|by destruct actor].
Qed.

(** A value that has an actor has properties. *)
Lemma actor_id_object h a id p :
  actor_id h a = Ret id → ∃ v, get_prop h a p = Ret v.
Proof.
  unfold actor_id. destruct a; cbn; try done; intros _; eauto.
Qed.

(** The handler up to its guard. *)
Lemma on_activities_throws fuel acts w :
  actor_id (store w) (hd JUndefined acts) = Throw JsTypeError →
  on_activities E fuel acts w = (Throw JsTypeError, w).
Proof.
  unfold actor_id, on_activities, st_bind at 1 2 3, gets at 1. cbn beta iota.
  destruct (get_prop (store w) (hd JUndefined acts) "actor") as [actor| | |];
    cbn [lift st_ret throw]; [|by intros [= <-]..].
  by intros ->.
Qed.

Lemma on_activities_guard fuel acts w id :
  actor_id (store w) (hd JUndefined acts) = Ret id →
  on_activities E fuel acts w
  = (if negb (strict_eq id (me_id E)) then
       activityType <- lift (get_prop (store w) (hd JUndefined acts)
                               "oae:activityType") ;;
       if contains supportedActivities activityType then
         (object <- object_of (hd JUndefined acts) ;;
          copy_from_profile object "canShare") ;;;
         (object <- object_of (hd JUndefined acts) ;;
          copy_from_profile object "canPost") ;;;
         (object <- object_of (hd JUndefined acts) ;;
          copy_from_profile object "isManager") ;;;
         object <- object_of (hd JUndefined acts) ;;
         trigger_document E fuel "oae.editmeeting.done" object
       else st_ret tt
     else st_ret tt) w.
Proof.
  unfold actor_id, on_activities, st_bind at 1 2 3, gets at 1. cbn beta iota.
  destruct (get_prop (store w) (hd JUndefined acts) "actor") as [actor| | |];
    cbn [lift st_ret throw]; [|done..].
  by intros ->.
Qed.

(** An activity of the viewing user, or of a type that is not supported,
    leaves the page as it is. *)
Lemma push_skip fuel w a rest id :
  wired w → actor_id (store w) a = Ret id →
  id = me_id E
  ∨ (∃ activityType,
       get_prop (store w) a "oae:activityType" = Ret activityType
       ∧ activityType ∉ supportedActivities) →
  step E fuel (PushMessage (a :: rest)) w = (Ret tt, w).
Proof.
  intros Hw Hid Hq. rewrite step_push by done.
  rewrite (on_activities_guard fuel (a :: rest) w id) by done. cbn [hd].
  destruct Hq as [-> | (ty & Hty & Hq)].
  - unfold strict_eq. by rewrite bool_decide_eq_true_2.
  - destruct (negb _); [|done]. unfold st_bind at 1, lift at 1. rewrite Hty.
    cbn [st_ret].
    destruct (contains supportedActivities ty) eqn:Hc; [|done].
    by apply contains_elem_of in Hc.
Qed.

Lemma push_unfold fuel w a rest :
  wired w → qualifies E (store w) a →
  step E fuel (PushMessage (a :: rest)) w
  = ((object <- object_of a ;; copy_from_profile object "canShare") ;;;
     (object <- object_of a ;; copy_from_profile object "canPost") ;;;
     (object <- object_of a ;; copy_from_profile object "isManager") ;;;
     object <- object_of a ;;
     trigger_document E fuel "oae.editmeeting.done" object) w.
Proof.
  intros Hw (id & ty & Hid & Hne & Hty & Hin). rewrite step_push by done.
  rewrite (on_activities_guard fuel (a :: rest) w id) by done. cbn [hd].
  unfold strict_eq. rewrite bool_decide_eq_false_2 by done. cbn [negb].
  unfold st_bind at 1, lift at 1. rewrite Hty. cbn [st_ret].
  apply contains_elem_of in Hin. by rewrite Hin.
Qed.

Lemma copy_ref w lp lo p :
  meetingProfile w = JRef lp →
  copy_from_profile (JRef lo) p w
  = (Ret tt, set_store (copied (store w) lp lo p) w).
Proof.
  intros Hp. unfold copy_from_profile, st_bind, gets. by rewrite Hp.
Qed.

Lemma copied_object h lp lo p q :
  obj_at (copied h lp lo p) lo !! q
  = if decide (p = q) then Some (default JUndefined (obj_at h lp !! p))
    else obj_at h lo !! q.
Proof.
  unfold copied. unfold obj_at at 1. rewrite lookup_insert_eq. cbn.
  by rewrite lookup_insert.
Qed.

(** A copy of one property leaves the other properties of every
    object. *)
Lemma copied_lookup h lp lo p l q :
  p ≠ q → obj_at (copied h lp lo p) l !! q = obj_at h l !! q.
Proof.
  intros Hpq. destruct (decide (l = lo)) as [->|Hne].
  - rewrite copied_object. by case_decide.
  - unfold copied. unfold obj_at at 1. by rewrite lookup_insert_ne.
Qed.

Lemma copied_profile h lp lo p q :
  p ≠ q → obj_at (copied h lp lo p) lp !! q = obj_at h lp !! q.
Proof. apply copied_lookup. Qed.

Lemma copied_other h lp lo p l :
  l ≠ lo → copied h lp lo p !! l = h !! l.
Proof. intros Hne. unfold copied. by rewrite lookup_insert_ne. Qed.

Lemma copied_get_prop h lp lo p a q :
  p ≠ q → get_prop (copied h lp lo p) a q = get_prop h a q.
Proof. intros Hpq. destruct a; cbn; try done. by rewrite copied_lookup. Qed.

(** What a handler is given of the data of [trigger]: an object without
    [length] itself, an object whose [length] is zero not at all. *)
Lemma trigger_args_object h l :
  obj_at h l !! "length" = None → trigger_args h (JRef l) = [JRef l].
Proof. intros Hl. unfold trigger_args, array_like. by rewrite Hl. Qed.

Lemma trigger_args_empty_list h l :
  obj_at h l !! "length" = Some (JNum 0) → trigger_args h (JRef l) = [].
Proof. intros Hl. unfold trigger_args, array_like. by rewrite Hl. Qed.

(** One of the three assignments, for an activity with an object. *)
Lemma copy_step w a lp lo p :
  meetingProfile w = JRef lp →
  get_prop (store w) a "object" = Ret (JRef lo) →
  (object <- object_of a ;; copy_from_profile object p) w
  = (Ret tt, set_store (copied (store w) lp lo p) w).
Proof.
  intros Hp Ho. unfold object_of, st_bind at 1 2, gets, lift. rewrite Ho.
  by apply copy_ref.
Qed.

Lemma push_refresh fuel w a rest lp lo :
  wired w → meetingProfile w = JRef lp → qualifies E (store w) a →
  get_prop (store w) a "object" = Ret (JRef lo) →
  obj_at (store w) lo !! "length" = None →
  step E (S fuel) (PushMessage (a :: rest)) w
  = (Ret tt,
     refreshed (JRef lo)
       (set_trace
          (trace w ++ [ETrigger Document "oae.editmeeting.done" (TData (JRef lo))])
          (set_store
             (copied (copied (copied (store w) lp lo "canShare") lp lo "canPost")
                lp lo "isManager") w))).
Proof.
  intros Hw Hp Hq Ho Hlen. rewrite push_unfold by done.
  erewrite bind_eq by (by apply copy_step).
  erewrite bind_eq
    by (apply copy_step; [done | cbn; by rewrite copied_get_prop]).
  erewrite bind_eq
    by (apply copy_step; [done | cbn; by rewrite !copied_get_prop]).
  unfold object_of at 1, st_bind at 1 2, gets at 1, lift at 1.
  cbn [store set_store]. rewrite !copied_get_prop, Ho by done.
  cbn [st_ret]. unfold trigger_document, emit.
  erewrite bind_eq by reflexivity. erewrite bind_eq by reflexivity.
  cbn [store set_store set_trace]. unfold trigger_args, array_like.
  rewrite !copied_lookup, Hlen by done.
  by rewrite dispatch_edit_done.
Qed.

(** *** The nesting of handlers is bounded *)

Lemma for_each_wired {A} (f : A → M unit) l w :
  wired w →
  (∀ x w, x ∈ l → wired w → ∃ w', f x w = (Ret tt, w') ∧ wired w') →
  ∃ w', for_each f l w = (Ret tt, w') ∧ wired w'.
Proof.
  intros Hw Hf. revert w Hw.
  induction l as [|x l IH]; intros w Hw; cbn [for_each]; [by eexists|].
  destruct (Hf x w) as (w1 & H1 & Hw1); [by left|done|].
  rewrite (bind_eq _ _ _ _ _ H1). apply IH; [|done].
  intros y w' Hy. apply Hf. by right.
Qed.

Lemma window_handler_returns fuel w (b : string * win_handler) :
  wired w →
  ∃ w', match b.2 with
        | OnLhnavigationReady pages =>
            trigger_window E (S fuel) "oae.trigger.lhnavigation"
              (TNavigation pages (baseUrl E))
        end w = (Ret tt, w') ∧ wired w'.
Proof.
  intros Hw. destruct b as [n [pages']]. cbn [snd].
  exists (set_trace
            (trace w ++ [ETrigger Window "oae.trigger.lhnavigation"
                           (TNavigation pages' (baseUrl E))]) w).
  split; [|done]. open_world w Hw. reflexivity.
Qed.

Lemma document_handler_returns fuel w f args :
  wired w →
  (f = OnContextGet → truthy (param args 0) = true →
   plain_name (to_str (param args 0)) = true) →
  ∃ w', doc_handler_body (trigger_document E (S fuel)) f args w = (Ret tt, w')
      ∧ wired w'.
Proof.
  intros Hw Hplain. destruct f; cbn [doc_handler_body].
  - by eexists.
  - rewrite refresh_eq. by eexists.
  - destruct (truthy (param args 0)).
    + exists (announced ("oae.context.send." +:+ to_str (param args 0)) w).
      split; [|done].
      erewrite bind_eq by reflexivity. unfold trigger_document, emit.
      erewrite bind_eq by reflexivity. erewrite bind_eq by reflexivity.
      apply (send_directed_idle fuel _ _ (announced _ _)); [done|auto].
    + exists (announced "oae.context.send" w).
      split; [|done]. open_world w Hw. reflexivity.
Qed.

(** The handler of [oae.context.get] is bound under that name only. *)
Lemma bound_context_get n (b : string * doc_handler) :
  b ∈ List.filter (λ b : string * doc_handler, fires b.1 n) doc_table →
  b.2 = OnContextGet → fires "oae.context.get" n = true.
Proof.
  intros Hb%list_elem_of_In%filter_In. destruct Hb as [Hin Hf].
  unfold doc_table in Hin. cbn in Hin.
  destruct Hin as [<- | [<- | [<- | []]]]; cbn; done.
Qed.

(** X14. On a page that is set up, every custom event with a plain name
    is handled to the end within two levels of nesting: no handler
    throws, and the handlers and the subscription stay as they are.
    Where the event is a request for the context that names a widget,
    the name of the widget is plain as well. *)
Theorem handlers_return fuel w t n args :
  (2 ≤ fuel)%nat → wired w → plain_name n = true →
  (fires "oae.context.get" n = true → truthy (param args 0) = true →
   plain_name (to_str (param args 0)) = true) →
  ∃ w', step E fuel (Triggered t n args) w = (Ret tt, w') ∧ wired w'.
Proof.
  intros Hf Hw Hn Hplain. destruct fuel as [|[|fuel]]; [lia..|].
  destruct t; cbn [step].
  - rewrite dispatch_document_unfold by done.
    destruct (for_each_wired
                (λ b : string * doc_handler,
                   doc_handler_body (trigger_document E (S fuel)) b.2 args)
                (List.filter (λ b, fires b.1 n) (on_document w)) w Hw)
      as (w1 & H1 & Hw1).
    { intros b w0 Hb Hw0. apply document_handler_returns; [done|].
      intros Hc. apply Hplain. destruct Hw as (Hd & _). rewrite Hd in Hb.
      by eapply bound_context_get. }
    rewrite (bind_eq _ _ _ _ _ H1).
    apply for_each_wired; [done|].
    intros; by apply window_handler_returns.
  - rewrite dispatch_window_unfold by done.
    apply for_each_wired; [done|].
    intros; by apply window_handler_returns.
Qed.

(** The one-time setup leaves the page loaded. *)
Lemma fetch_success_loaded fuel h l :
  loaded (step E (S fuel) (TransportCompletes 0 (Api.Success (JRef l)))
            (awaiting E h)).2.
Proof. rewrite fetch_success. repeat split; by eexists. Qed.

(** C6. When the initial fetch fails, a 401 leads to the access-denied
    page and any other code to the not-found page; the profile is not
    cached and none of the setup steps is performed: no summary is
    rendered, no navigation and no context responder are registered,
    the page is not revealed and no push subscription is made. *)
Theorem initial_load_failure_routing fuel h x :
  ∃ w', step E fuel (TransportCompletes 0 (Api.Failure x)) (awaiting E h)
        = (Ret tt, w')
    ∧ trace w' = [ERedirect (if (Api.status x =? 401)%Z then AccessDenied
                             else NotFound)]
    ∧ meetingProfile w' = JNull
    ∧ clip_container w' = None
    ∧ on_window w' = []
    ∧ on_document w' = [("oae.manageaccess.done", OnManageAccessDone);
                        ("oae.editmeeting.done", OnEditMeetingDone)]
    ∧ subscriptions w' = []
    ∧ Api.pending (traffic w') = [].
Proof. eexists. split; [apply fetch_failure|]. done. Qed.

(** C1. Of a batch of activities only the first is looked at. When its
    actor is the viewing user, or its type is not one of
    [meeting-update] and [meeting-update-visibility], the page is left
    as it is. When the actor is another user and the type is one of the
    two, the [oae.editmeeting.done] event goes out once with the
    activity's object, one refresh follows, and that object is the new
    profile; the object is one without a [length], which [trigger] does
    not take for a list. A batch without a first activity, or whose
    first activity has no actor, raises a TypeError and refreshes
    nothing. *)
Theorem push_filtering fuel w a rest :
  (1 ≤ fuel)%nat → loaded w →
  step E fuel (PushMessage (a :: rest)) w = step E fuel (PushMessage [a]) w
  ∧ (∀ id, actor_id (store w) a = Ret id →
       id = me_id E
       ∨ (∃ activityType,
            get_prop (store w) a "oae:activityType" = Ret activityType
            ∧ activityType ∉ supportedActivities) →
       step E fuel (PushMessage (a :: rest)) w = (Ret tt, w))
  ∧ (∀ lo, qualifies E (store w) a →
       get_prop (store w) a "object" = Ret (JRef lo) →
       obj_at (store w) lo !! "length" = None →
       ∃ w', step E fuel (PushMessage (a :: rest)) w = (Ret tt, w')
         ∧ meetingProfile w' = JRef lo
         ∧ topic_container w' = [("meeting", JRef lo)]
         ∧ clip_container w' = Some (JRef lo, false)
         ∧ trace w'
           = trace w
             ++ [ETrigger Document "oae.editmeeting.done" (TData (JRef lo));
                 EEmpty "#lhnavigation-widget-meeting";
                 EInsertWidget "meeting" "#lhnavigation-widget-meeting"
                   (JRef lo);
                 ERender "#meeting-clip-template" (JRef lo) false
                   "#meeting-clip-container"])
  ∧ (actor_id (store w) a = Throw JsTypeError →
       step E fuel (PushMessage (a :: rest)) w = (Throw JsTypeError, w))
  ∧ step E fuel (PushMessage []) w = (Throw JsTypeError, w).
Proof.
  intros Hf [Hw [lp Hp]]. destruct fuel as [|fuel]; [lia|].
  split; [by rewrite !step_push|].
  split; [intros id Hid Hq; by eapply push_skip|].
  split.
  - intros lo Hq Ho Hlen. eexists. split; [by eapply push_refresh|].
    cbn. by rewrite <- app_assoc.
  - split; intros; rewrite step_push by done;
      by apply on_activities_throws.
Qed.

(** C2, amended. In the loaded state an edit-done event installs its
    profile as the cached profile and writes to no object. A qualifying
    push notification installs the object of the activity, an object
    without a [length], after setting the object's [canShare],
    [canPost] and [isManager] to the values of the old profile; the
    other properties of the object, and all other objects, are as they
    arrived. *)
Theorem refresh_replaces_profile fuel w :
  (1 ≤ fuel)%nat → loaded w →
  (∀ v, ∃ w', step E fuel (Triggered Document "oae.editmeeting.done" [v]) w
              = (Ret tt, w')
          ∧ meetingProfile w' = v ∧ store w' = store w)
  ∧ (∀ a rest lp lo,
       meetingProfile w = JRef lp → qualifies E (store w) a →
       get_prop (store w) a "object" = Ret (JRef lo) →
       obj_at (store w) lo !! "length" = None →
       ∃ w', step E fuel (PushMessage (a :: rest)) w = (Ret tt, w')
         ∧ meetingProfile w' = JRef lo
         ∧ (∀ p, obj_at (store w') lo !! p
                 = if bool_decide (p ∈ own_flags)
                   then Some (default JUndefined (obj_at (store w) lp !! p))
                   else obj_at (store w) lo !! p)
         ∧ (∀ l, l ≠ lo → store w' !! l = store w !! l)).
Proof.
  intros Hf [Hw _]. destruct fuel as [|fuel]; [lia|]. split.
  - intros v. eexists. split; [by apply dispatch_edit_done|]. done.
  - intros a rest lp lo Hp Hq Ho Hlen.
    eexists. split; [by eapply push_refresh|].
    split; [done|]. cbn [refreshed store set_trace set_clip_container
                         set_topic_container set_meetingProfile set_store].
    split.
    + intros p. rewrite !copied_object, !copied_profile by done.
      unfold own_flags.
      destruct (decide ("isManager" = p)) as [<-|H1];
        [by rewrite bool_decide_eq_true_2 by (rewrite !elem_of_cons; auto)|].
      destruct (decide ("canPost" = p)) as [<-|H2];
        [by rewrite bool_decide_eq_true_2 by (rewrite !elem_of_cons; auto)|].
      destruct (decide ("canShare" = p)) as [<-|H3];
        [by rewrite bool_decide_eq_true_2 by (rewrite !elem_of_cons; auto)|].
      rewrite bool_decide_eq_false_2; [done|].
      rewrite !elem_of_cons, elem_of_nil. intros [->|[->|[->|[]]]]; congruence.
    + intros l Hl. by rewrite !copied_other.
Qed.

Lemma included_cons_same x xs ys :
  included (x :: xs) (x :: ys) = included xs ys.
Proof. cbn [included remove_one]. by rewrite String.eqb_refl. Qed.

Lemma plain_free s : plain s = true → free_of "." s = true.
Proof.
  induction s as [|c s IH]; cbn [plain free_of]; [done|].
  intros [Hc Hs]%andb_prop. rewrite (IH Hs), andb_true_r.
  destruct (Ascii.eqb_spec c ".") as [->|]; [discriminate Hc|done].
Qed.

Lemma plain_part_name s : plain_part s = true → plain_name s = true.
Proof.
  intros Hs. unfold plain_name. pose proof Hs as [_ Hp]%andb_prop.
  rewrite split_on_free by (by apply plain_free). cbn [forallb].
  by rewrite Hs.
Qed.

(** Who hears what: the channel of a widget is heard by the listeners
    scoped to that widget alone, the broadcast by every listener. *)
Lemma channel_scoping :
  (∀ W V, plain_part W = true → plain_part V = true →
     hears ("oae.context.send." +:+ V) ("oae.context.send." +:+ W)
     = Some (bool_decide (V = W)))
  ∧ (∀ W, plain_name W = true →
       hears "oae.context.send" ("oae.context.send." +:+ W) = Some false)
  ∧ (∀ V, plain_name V = true →
       hears ("oae.context.send." +:+ V) "oae.context.send" = Some true)
  ∧ hears "oae.context.send" "oae.context.send" = Some true.
Proof.
  unfold hears. split; [|split; [|split]].
  - intros W V HW HV. rewrite !plain_name_send, !plain_part_name by done.
    cbn [andb]. f_equal. unfold fires, event_type, namespaces.
    pose proof HW as [_ HW']%andb_prop. pose proof HV as [_ HV']%andb_prop.
    rewrite !split_send, !split_on_free by (by apply plain_free).
    cbn [hd tl]. rewrite !included_cons_same. cbn [included remove_one].
    change (String.eqb "oae" "oae") with true. cbn [andb].
    destruct (String.eqb_spec W V) as [->|Hne].
    + by rewrite bool_decide_eq_true_2.
    + by rewrite bool_decide_eq_false_2.
  - intros W HW. rewrite plain_name_send, HW.
    change (plain_name "oae.context.send") with true. cbn [andb]. f_equal.
    unfold fires, event_type, namespaces. rewrite split_send.
    destruct (split_on_cons "." W) as (x & xs & ->).
    change (split_on "." "oae.context.send") with ["oae"; "context"; "send"].
    cbn [hd tl]. by rewrite !included_cons_same, andb_false_r.
  - intros V HV. rewrite plain_name_send, HV.
    change (plain_name "oae.context.send") with true. cbn [andb].
    reflexivity.
  - reflexivity.
Qed.

(** C7. Once the page is loaded, a context request that names no widget
    is answered by one broadcast of the current profile, and a request
    naming a widget by one reply on the channel of that widget and on
    no other. The channel of a widget is heard by the listeners scoped
    to it and by no others, the broadcast by every listener. The setup
    that follows the initial fetch registers the responder and
    broadcasts the profile once: the broadcast goes out from the page
    that has the responder bound already. Names of widgets are plain:
    letters, digits, hyphens and underscores. *)
Theorem context_responder fuel w args :
  (2 ≤ fuel)%nat → loaded w →
  (truthy (param args 0) = false →
     step E fuel (Triggered Document "oae.context.get" args) w
     = (Ret tt, announced "oae.context.send" w))
  ∧ (truthy (param args 0) = true →
     plain_name (to_str (param args 0)) = true →
     step E fuel (Triggered Document "oae.context.get" args) w
     = (Ret tt,
        announced ("oae.context.send." +:+ to_str (param args 0)) w))
  ∧ (∀ W V, plain_part W = true → plain_part V = true →
       hears ("oae.context.send." +:+ V) ("oae.context.send." +:+ W)
       = Some (bool_decide (V = W)))
  ∧ (∀ W, plain_name W = true →
       hears "oae.context.send" ("oae.context.send." +:+ W) = Some false)
  ∧ (∀ V, plain_name V = true →
       hears ("oae.context.send." +:+ V) "oae.context.send" = Some true)
  ∧ hears "oae.context.send" "oae.context.send" = Some true
  ∧ (∀ h l,
       ∃ w', step E fuel (TransportCompletes 0 (Api.Success (JRef l)))
               (awaiting E h) = (Ret tt, w')
         ∧ on_document w' = doc_table
         ∧ trace w'
           = [ERender "#meeting-clip-template" (JRef l) false
                "#meeting-clip-container";
              ETrigger Window "oae.trigger.lhnavigation"
                (TNavigation
                   (lhNavPages
                      (default JUndefined (obj_at h l !! "displayName"))
                      (JRef l))
                   (baseUrl E));
              ETrigger Document "oae.context.send" (TData (JRef l));
              EShowPage])
  ∧ (∀ fuel' w0,
       setUpContext E fuel' w0
       = trigger_document E fuel' "oae.context.send" (meetingProfile w0)
           (set_on_document
              (on_document w0 ++ [("oae.context.get", OnContextGet)]) w0)).
Proof.
  intros Hf [Hw _]. destruct fuel as [|[|fuel]]; [lia..|].
  destruct channel_scoping as (C1 & C2 & C3 & C4).
  split.
  { intros Ht. cbn [step]. rewrite dispatch_context_get; [|done|].
    - by rewrite Ht.
    - by rewrite Ht. }
  split.
  { intros Ht Hplain. cbn [step]. rewrite dispatch_context_get by done.
    by rewrite Ht. }
  repeat (split; [assumption|]).
  split.
  - intros h l. eexists. split; [apply fetch_success|]. done.
  - intros fuel' w0. reflexivity.
Qed.

(** C9. Applying the same profile twice through the edit-done event
    gives, the second time, the page of the first time: the same cached
    profile, the same summary, and a topic container that holds the one
    widget instance inserted after the container was emptied. Only the
    record of the calls made grows. *)
Theorem edit_done_idempotent fuel w v :
  (1 ≤ fuel)%nat → loaded w →
  ∃ w1 w2,
    step E fuel (Triggered Document "oae.editmeeting.done" [v]) w = (Ret tt, w1)
    ∧ step E fuel (Triggered Document "oae.editmeeting.done" [v]) w1
      = (Ret tt, w2)
    ∧ meetingProfile w1 = v
    ∧ topic_container w1 = [("meeting", v)]
    ∧ clip_container w1 = Some (v, false)
    ∧ w2 = set_trace
             (trace w1 ++ [EEmpty "#lhnavigation-widget-meeting";
                           EInsertWidget "meeting"
                             "#lhnavigation-widget-meeting" v;
                           ERender "#meeting-clip-template" v false
                             "#meeting-clip-container"]) w1.
Proof.
  intros Hf [Hw _]. destruct fuel as [|fuel]; [lia|].
  assert (wired (refreshed v w)) as Hw' by done.
  eexists _, _. cbn [step].
  split; [by apply dispatch_edit_done|].
  split; [by apply dispatch_edit_done|].
  repeat (split; [reflexivity|]).
  by apply world_ext.
Qed.

End PageBehaviour.

(** *** On the sample page *)

Section Sample.
Import Page.

Ltac evaluate_loaded :=
  split;
  [ split; [vm_compute; reflexivity | split; eexists; vm_compute; reflexivity]
  | eexists; vm_compute; reflexivity ].

Ltac evaluate_qualifies :=
  exists (JStr "u:cam:other"), (JStr "meeting-update");
  split; [vm_compute; reflexivity|];
  split; [discriminate|];
  split; [vm_compute; reflexivity | apply list_elem_of_here].

(** C2, as the specification has it, fails on the push path: the
    object of the activity arrives with [canShare] false, the old
    profile has it true, and the new profile has it true. *)
Lemma push_refresh_keeps_own_flags :
  loaded sample_loaded
  ∧ obj_at (store sample_loaded) 1 !! "canShare" = Some (JBool true)
  ∧ obj_at (store sample_loaded) 2 !! "canShare" = Some (JBool false)
  ∧ (let w' := (step sample_env 2 (PushMessage [sample_activity])
                  sample_loaded).2 in
     meetingProfile w' = JRef 2
     ∧ obj_at (store w') 2 !! "canShare" = Some (JBool true))
  ∧ ¬ (∀ E fuel w a lo w',
         loaded w → get_prop (store w) a "object" = Ret (JRef lo) →
         step E fuel (PushMessage [a]) w = (Ret tt, w') →
         meetingProfile w' = JRef lo →
         obj_at (store w') lo = obj_at (store w) lo).
Proof.
  assert (loaded sample_loaded) as Hl by evaluate_loaded.
  split; [exact Hl|].
  split; [vm_compute; reflexivity|]. split; [vm_compute; reflexivity|].
  split; [vm_compute; split; reflexivity|].
  intros H.
  assert (step sample_env 2 (PushMessage [sample_activity]) sample_loaded
          = (Ret tt, (step sample_env 2 (PushMessage [sample_activity])
                        sample_loaded).2)) as Hs
    by (vm_compute; reflexivity).
  assert (meetingProfile (step sample_env 2 (PushMessage [sample_activity])
                            sample_loaded).2 = JRef 2) as Hp
    by (vm_compute; reflexivity).
  assert (get_prop (store sample_loaded) sample_activity "object"
          = Ret (JRef 2)) as Ho by (vm_compute; reflexivity).
  pose proof (H sample_env 2%nat sample_loaded sample_activity 2%positive _
                Hl Ho Hs Hp) as Heq.
  apply (f_equal (λ o : jsobj, o !! "canShare")) in Heq.
  vm_compute in Heq. discriminate Heq.
Qed.

Lemma refresh_replaces_profile_witness :
  loaded sample_loaded
  ∧ ∃ w', step sample_env 1 (Triggered Document "oae.editmeeting.done" [JRef 2])
            sample_loaded = (Ret tt, w')
        ∧ meetingProfile w' = JRef 2 ∧ store w' = store sample_loaded.
Proof.
  assert (loaded sample_loaded) as Hl by evaluate_loaded.
  split; [exact Hl|].
  exact (proj1 (refresh_replaces_profile sample_env 1 sample_loaded (le_n 1) Hl)
           (JRef 2)).
Defined.


Lemma push_filtering_witness :
  loaded sample_loaded
  ∧ qualifies sample_env (store sample_loaded) sample_activity
  ∧ obj_at (store sample_loaded) 2 !! "length" = None
  ∧ ∃ w', step sample_env 1 (PushMessage [sample_activity]) sample_loaded
          = (Ret tt, w')
        ∧ meetingProfile w' = JRef 2.
Proof.
  assert (loaded sample_loaded) as Hl by evaluate_loaded.
  split; [exact Hl|].
  assert (qualifies sample_env (store sample_loaded) sample_activity) as Hq
    by evaluate_qualifies.
  assert (get_prop (store sample_loaded) sample_activity "object"
          = Ret (JRef 2)) as Ho by (vm_compute; reflexivity).
  assert (obj_at (store sample_loaded) 2 !! "length" = None) as Hlen
    by (vm_compute; reflexivity).
  split; [exact Hq|]. split; [exact Hlen|].
  destruct (proj1 (proj2 (proj2
              (push_filtering sample_env 1 sample_loaded sample_activity []
                 (le_n 1) Hl))) 2%positive Hq Ho Hlen)
    as (w' & Hs & Hp & _).
  exists w'. split; [exact Hs | exact Hp].
Defined.

Lemma context_responder_witness :
  loaded sample_loaded
  ∧ plain_name (to_str (JStr "comments")) = true
  ∧ step sample_env 2 (Triggered Document "oae.context.get" [JStr "comments"])
      sample_loaded
    = (Ret tt, announced "oae.context.send.comments" sample_loaded).
Proof.
  assert (loaded sample_loaded) as Hl by evaluate_loaded.
  split; [exact Hl|].
  split; [reflexivity|].
  exact (proj1 (proj2 (context_responder sample_env 2 sample_loaded
                         [JStr "comments"] (le_n 2) Hl)) eq_refl eq_refl).
Defined.

Lemma edit_done_idempotent_witness :
  loaded sample_loaded
  ∧ ∃ w1 w2,
      step sample_env 1 (Triggered Document "oae.editmeeting.done" [JRef 2])
        sample_loaded = (Ret tt, w1)
      ∧ step sample_env 1 (Triggered Document "oae.editmeeting.done" [JRef 2])
          w1 = (Ret tt, w2)
      ∧ topic_container w1 = [("meeting", JRef 2)]
      ∧ topic_container w2 = [("meeting", JRef 2)].
Proof.
  assert (loaded sample_loaded) as Hl by evaluate_loaded.
  split; [exact Hl|].
  destruct (edit_done_idempotent sample_env 1 sample_loaded (JRef 2)
              (le_n 1) Hl) as (w1 & w2 & H1 & H2 & _ & Ht & _ & ->).
  exists w1, (set_trace
                (trace w1 ++ [EEmpty "#lhnavigation-widget-meeting";
                              EInsertWidget "meeting"
                                "#lhnavigation-widget-meeting" (JRef 2);
                              ERender "#meeting-clip-template" (JRef 2) false
                                "#meeting-clip-container"]) w1).
  split; [exact H1|]. split; [exact H2|]. split; exact Ht.
Defined.


End Sample.

(** ** The API client: beyond the contract *)

Section ApiBeyond.
Import Api.

Ltac unfold_ops :=
  unfold invoke, getMeeting, createMeeting, updateMeeting, startMeeting,
    deleteMeeting, getMembers, updateMembers, shareMeeting, getLibrary,
    deleteMeetingFromLibrary, endMeeting, infoMeeting, getRecording,
    updateRecording, deleteRecording, getInvitations, resendInvitation.

Ltac guards :=
  unfold_ops; unfold st_bind, lift;
  repeat match goal with
  | |- context [truthy ?v] => destruct (truthy v) eqn:?; cbn [negb orb]
  | |- context [get_prop ?h ?v ?p] =>
      let H := fresh "Hlen" in
      destruct (get_prop_cases h v p) as [H | [? H]]; rewrite H; cbn
  | |- context [(length ?l =? 0)%nat] =>
      destruct (length l =? 0)%nat eqn:?; cbn
  end.

(** X1. Every operation of the client does one of two things: it throws
    before anything is sent and leaves the traffic as it was, or it
    returns after sending exactly one request, whose address lies under
    [/api/]. *)
Theorem operation_throws_or_issues h c cb n :
  (∃ e, invoke h c cb n = (Throw e, n))
  ∨ (∃ s rest, invoke h c cb n = (Ret tt, issued n s)
       ∧ url s = "/api/" +:+ rest).
Proof.
  destruct c; guards;
    solve [ left; eexists; reflexivity
          | right; eexists _, _; split; reflexivity
          | discriminate ].
Qed.

(** X2. Only [shareMeeting] can raise a TypeError instead of its own
    error, and only when it is given a meeting id and [null] or
    [undefined] as the principals, whose [length] it reads. *)
Theorem type_error_only_from_shareMeeting h c cb n n' :
  invoke h c cb n = (Throw JsTypeError, n') →
  ∃ i p, c = ShareMeeting i p ∧ truthy i = true
         ∧ (p = JUndefined ∨ p = JNull).
Proof.
  destruct c; guards; try discriminate.
  intros _. exists meetingId, principals. repeat split; [done|].
  destruct principals; cbn in Hlen; try discriminate; auto.
Qed.

Lemma type_error_only_from_shareMeeting_witness :
  invoke ∅ (ShareMeeting (JStr "d:cam:xyz") JNull) CbUndefined no_traffic
  = (Throw JsTypeError, no_traffic)
  ∧ ∃ i p, ShareMeeting (JStr "d:cam:xyz") JNull = ShareMeeting i p
           ∧ truthy i = true ∧ (p = JUndefined ∨ p = JNull).
Proof.
  split; [reflexivity|].
  exact (type_error_only_from_shareMeeting ∅
           (ShareMeeting (JStr "d:cam:xyz") JNull) CbUndefined no_traffic
           no_traffic eq_refl).
Defined.

(** X3. The operations that take a second required argument check the
    meeting id first: without one, the error is the one about the
    meeting id whatever the other argument is.
    [deleteMeetingFromLibrary] checks the principal before the meeting
    id. *)
Theorem meeting_id_checked_first h meetingId other cb n :
  truthy meetingId = false →
  invoke h (UpdateMeeting meetingId other) cb n
  = (Throw (JsError "A valid meeting id should be provided"), n)
  ∧ invoke h (UpdateMembers meetingId other) cb n
    = (Throw (JsError "A valid meeting id should be provided"), n)
  ∧ invoke h (ShareMeeting meetingId other) cb n
    = (Throw (JsError "A meeting id should be provided"), n)
  ∧ invoke h (DeleteMeetingFromLibrary other meetingId) cb n
    = (Throw (JsError (if truthy other
                       then "A valid meeting id should be provided"
                       else "A valid user or group id should be provided")),
       n).
Proof.
  intros Hid. unfold_ops. rewrite Hid. cbn [negb].
  repeat split. by destruct (truthy other).
Qed.

Lemma meeting_id_checked_first_witness :
  truthy JUndefined = false
  ∧ invoke ∅ (ShareMeeting JUndefined JUndefined) CbUndefined no_traffic
    = (Throw (JsError "A meeting id should be provided"), no_traffic).
Proof.
  split; [reflexivity|].
  exact (proj1 (proj2 (proj2 (meeting_id_checked_first ∅ JUndefined JUndefined
                                CbUndefined no_traffic eq_refl)))).
Defined.

(** X4. [resendInvitation] accepts any email, an absent one too: the
    address is put into the path as it converts to a string, so that a
    missing email is a POST to [.../invitations/undefined/resend]. *)
Theorem resendInvitation_accepts_any_email meetingId email cb n :
  truthy meetingId = true →
  ∃ s, resendInvitation meetingId email cb n = (Ret tt, issued n s)
     ∧ type_ s = Some "POST"
     ∧ url s = "/api/meeting/" +:+ to_str meetingId +:+ "/invitations/"
               +:+ to_str email +:+ "/resend"
     ∧ (email = JUndefined →
        url s = "/api/meeting/" +:+ to_str meetingId
                +:+ "/invitations/undefined/resend").
Proof.
  intros Hid. unfold resendInvitation. rewrite Hid. cbn [negb].
  eexists. split; [reflexivity|]. cbn. repeat split. by intros ->.
Qed.

Lemma resendInvitation_accepts_any_email_witness :
  truthy (JStr "d:cam:xyz") = true
  ∧ ∃ s, resendInvitation (JStr "d:cam:xyz") JUndefined CbUndefined no_traffic
         = (Ret tt, issued no_traffic s)
       ∧ url s = "/api/meeting/d:cam:xyz/invitations/undefined/resend".
Proof.
  split; [reflexivity|].
  destruct (resendInvitation_accepts_any_email (JStr "d:cam:xyz") JUndefined
              CbUndefined no_traffic eq_refl) as (s & Hs & _ & _ & Hu).
  exists s. split; [exact Hs | exact (Hu eq_refl)].
Defined.

(** X5. What [updateRecording] sends as [publish] is the negation of
    the truth value of its argument: [false] for every non-empty string,
    whatever it spells, and [true] for a missing argument and for the
    empty string. *)
Theorem updateRecording_publish_coercion recordingId publish cb n :
  truthy recordingId = true →
  ∃ s, updateRecording recordingId publish cb n = (Ret tt, issued n s)
     ∧ (∀ text, publish = JStr text → text ≠ "" →
          data s = Some (DataLiteral [("publish", JBool false)]))
     ∧ (publish = JUndefined ∨ publish = JNull ∨ publish = JStr "" →
          data s = Some (DataLiteral [("publish", JBool true)])).
Proof.
  intros Hid. unfold updateRecording. rewrite Hid. cbn [negb].
  eexists. split; [reflexivity|]. cbn [data]. split.
  - intros text -> Hne. unfold js_not. cbn [truthy].
    destruct (String.eqb_spec text ""); [done|reflexivity].
  - by intros [-> | [-> | ->]].
Qed.

Lemma updateRecording_publish_coercion_witness :
  truthy (JStr "rec-1") = true
  ∧ ∃ s, updateRecording (JStr "rec-1") (JStr "false") CbUndefined no_traffic
         = (Ret tt, issued no_traffic s)
       ∧ data s = Some (DataLiteral [("publish", JBool false)]).
Proof.
  split; [reflexivity|].
  destruct (updateRecording_publish_coercion (JStr "rec-1") (JStr "false")
              CbUndefined no_traffic eq_refl) as (s & Hs & Hf & _).
  exists s. split; [exact Hs|]. apply (Hf "false" eq_refl). discriminate.
Defined.

(** X6. A failed [getRecording] reaches the callback with the error and
    [null] whatever the status, a 404 too; a 404 is logged as
    [No recording found] in addition, and nothing else is. *)
Theorem getRecording_surfaces_404 meetingId k n x :
  truthy meetingId = true →
  ∃ n1 n2,
    getRecording meetingId (CbFunction k) n = (Ret tt, n1)
    ∧ complete (length (pending n)) (Failure x) n1 = (Ret tt, n2)
    ∧ calls n2 = calls n ++ [(k, [ArgError (err_of x); ArgNull])]
    ∧ console n2 = console n
                   ++ (if (status x =? 404)%Z then ["No recording found"]
                       else [])
    ∧ pending n2 = pending n.
Proof.
  intros Hid. unfold getRecording. rewrite Hid. cbn [negb].
  unfold ajax, modify. rewrite (Z.eqb_sym (status x)).
  destruct (404 =? status x)%Z eqn:H404; eexists _, _;
    (split; [reflexivity|]); rewrite complete_last; cbn -[Z.eqb];
    rewrite H404; cbn; (split; [reflexivity|]); cbn;
    by rewrite ?app_nil_r.
Qed.

Lemma getRecording_surfaces_404_witness :
  truthy (JStr "d:cam:xyz") = true
  ∧ ∃ n2,
      complete 0 (Failure {| status := 404; responseText := "" |})
        (getRecording (JStr "d:cam:xyz") (CbFunction "done") no_traffic).2
      = (Ret tt, n2)
      ∧ calls n2 = [("done", [ArgError {| code := 404; msg := "" |}; ArgNull])]
      ∧ console n2 = ["No recording found"].
Proof.
  split; [reflexivity|].
  destruct (getRecording_surfaces_404 (JStr "d:cam:xyz") "done" no_traffic
              {| status := 404; responseText := "" |} eq_refl)
    as (n1 & n2 & H1 & H2 & Hc & Hl & _).
  injection H1 as <-. exists n2. split; [exact H2|]. split; [exact Hc|exact Hl].
Defined.

(** The completion of a request in the middle of those in flight. *)
Lemma complete_at n l1 s l2 r :
  pending n = l1 ++ s :: l2 →
  complete (length l1) r n
  = for_each run_action (handlers_for s r)
      {| pending := l1 ++ l2; calls := calls n; console := console n |}.
Proof.
  intros Hp. unfold complete. rewrite Hp.
  rewrite list_lookup_middle by done. by rewrite delete_middle.
Qed.

(** The request of an accepted call does not depend on the traffic, and
    wherever it stands among the requests in flight, its completion
    passes the reply to the callback of that call. *)
Lemma request_of h c k n n1 :
  invoke h c (CbFunction k) n = (Ret tt, n1) →
  ∃ s, (∀ n', invoke h c (CbFunction k) n' = (Ret tt, issued n' s))
     ∧ ∀ r m l1 l2,
         pending m = l1 ++ s :: l2 →
         ∃ m', complete (length l1) r m = (Ret tt, m')
               ∧ pending m' = l1 ++ l2
               ∧ calls m' = calls m ++ [(k, reply c r)].
Proof.
  destruct c; guards; try discriminate; intros _;
    (eexists; split; [reflexivity|]); intros [body|xhr] m l1 l2 Hp;
    rewrite (complete_at _ _ _ _ _ Hp);
    cbn -[Z.eqb]; try destruct (404 =? status xhr)%Z; cbn; by eexists.
Qed.

(** X7. Two accepted calls in flight complete in either order: each
    callback is invoked once, with the reply to its own request, in the
    order of the completions, and no request stays in flight. *)
Theorem concurrent_calls_do_not_mix h c1 c2 k1 k2 n n1 n2 r1 r2 :
  invoke h c1 (CbFunction k1) n = (Ret tt, n1) →
  invoke h c2 (CbFunction k2) n1 = (Ret tt, n2) →
  (∃ n3 n4,
     complete (S (length (pending n))) r2 n2 = (Ret tt, n3)
     ∧ complete (length (pending n)) r1 n3 = (Ret tt, n4)
     ∧ calls n4 = calls n ++ [(k2, reply c2 r2); (k1, reply c1 r1)]
     ∧ pending n4 = pending n)
  ∧ (∃ n3 n4,
       complete (length (pending n)) r1 n2 = (Ret tt, n3)
       ∧ complete (length (pending n)) r2 n3 = (Ret tt, n4)
       ∧ calls n4 = calls n ++ [(k1, reply c1 r1); (k2, reply c2 r2)]
       ∧ pending n4 = pending n).
Proof.
  intros H1 H2.
  destruct (request_of _ _ _ _ _ H1) as (s1 & I1 & R1).
  destruct (request_of _ _ _ _ _ H2) as (s2 & I2 & R2).
  rewrite I1 in H1. injection H1 as <-.
  rewrite I2 in H2. injection H2 as <-.
  assert (pending (issued (issued n s1) s2) = pending n ++ s1 :: [s2]) as P1
    by (cbn; by rewrite <- app_assoc).
  assert (pending (issued (issued n s1) s2) = (pending n ++ [s1]) ++ s2 :: [])
    as P2 by done.
  split.
  - destruct (R2 r2 _ _ _ P2) as (n3 & E3 & P3 & C3).
    rewrite length_app, Nat.add_1_r in E3. rewrite app_nil_r in P3.
    destruct (R1 r1 n3 (pending n) [] P3) as (n4 & E4 & P4 & C4).
    exists n3, n4. split; [done|]. split; [done|].
    rewrite C4, C3, app_nil_r in *. cbn. by rewrite <- app_assoc.
  - destruct (R1 r1 _ _ _ P1) as (n3 & E3 & P3 & C3).
    destruct (R2 r2 n3 (pending n) [] P3) as (n4 & E4 & P4 & C4).
    exists n3, n4. split; [done|]. split; [done|].
    rewrite C4, C3, app_nil_r in *. cbn. by rewrite <- app_assoc.
Qed.

Lemma concurrent_calls_do_not_mix_witness :
  ∃ n3 n4,
    complete 1 (Success (JStr "members"))
      (getMembers (JStr "d:cam:xyz") JNull (JNum 10) (CbFunction "members")
         (getMeeting (JStr "d:cam:xyz") (CbFunction "profile")
            no_traffic).2).2
    = (Ret tt, n3)
    ∧ complete 0 (Failure {| status := 401; responseText := "" |}) n3
      = (Ret tt, n4)
    ∧ calls n4 = [("members", [ArgNull; ArgData (JStr "members")]);
                  ("profile", [ArgError {| code := 401; msg := "" |}])]
    ∧ pending n4 = [].
Proof.
  exact (proj1 (concurrent_calls_do_not_mix ∅
                  (GetMeeting (JStr "d:cam:xyz"))
                  (GetMembers (JStr "d:cam:xyz") JNull (JNum 10))
                  "profile" "members" no_traffic _ _
                  (Failure {| status := 401; responseText := "" |})
                  (Success (JStr "members")) eq_refl eq_refl)).
Defined.

End ApiBeyond.

(** ** Locations below a meeting *)

Section Locations.
Import Page Location.

Lemma append_empty s : s +:+ "" = s.
Proof.
  induction s as [|a s IH]; rewrite ?append_nil, ?append_cons; [done|].
  by rewrite IH.
Qed.

Lemma strip_trailing_snoc c s :
  strip_trailing c (s +:+ String c "") = strip_trailing c s.
Proof.
  induction s as [|a s IH]; rewrite ?append_nil, ?append_cons;
    cbn [strip_trailing].
  - by rewrite Ascii.eqb_refl.
  - by rewrite IH.
Qed.

Lemma simple_cons c s :
  simple c s → ∃ a r, s = String a r ∧ Ascii.eqb a c = false.
Proof.
  intros [Hne Hf]. destruct s as [|a r]; [done|]. exists a, r.
  split; [done|]. cbn [free_of] in Hf.
  by destruct (Ascii.eqb a c).
Qed.

Lemma path_of_cons s l : path_of (s :: l) = String "/" (s +:+ path_of l).
Proof. reflexivity. Qed.

Lemma strip_trailing_path l :
  Forall (simple "/") l → strip_trailing "/" (path_of l) = path_of l.
Proof.
  induction 1 as [|s l [Hne Hs] Hl IH]; [done|].
  rewrite path_of_cons. destruct l as [|s' l].
  - change (path_of []) with "". rewrite append_empty.
    change (String "/" s) with ("/" +:+ s).
    apply strip_trailing_app; [done|]. by apply strip_trailing_free.
  - change (String "/" (s +:+ path_of (s' :: l)))
      with (String "/" s +:+ path_of (s' :: l)).
    apply strip_trailing_app; [by rewrite path_of_cons|done].
Qed.

Lemma split_on_path s l :
  Forall (simple "/") (s :: l) → split_on "/" (s +:+ path_of l) = s :: l.
Proof.
  revert s. induction l as [|s' l IH]; intros s Hl.
  - change (path_of []) with "". rewrite append_empty.
    apply split_on_free. by apply Forall_cons in Hl as [[_ ?] _].
  - apply Forall_cons in Hl as [[_ Hs] Hl]. rewrite path_of_cons.
    rewrite split_on_app by done. by rewrite IH.
Qed.

(** The segments of the path of a list of segments are that list, with
    or without a slash at the end of the path. *)
Lemma segments_path l :
  Forall (simple "/") l → l ≠ [] →
  segments (path_of l) = l ∧ segments (path_of l +:+ "/") = l.
Proof.
  intros Hl Hne. destruct l as [|s l]; [done|].
  assert (segments (path_of (s :: l)) = s :: l) as Hseg.
  { unfold segments.
    assert (strip_leading "/" (path_of (s :: l)) = s +:+ path_of l) as ->.
    { rewrite path_of_cons. cbn [strip_leading]. rewrite Ascii.eqb_refl.
      apply Forall_cons in Hl as [Hs _].
      destruct (simple_cons _ _ Hs) as (a & r & -> & Ha).
      rewrite append_cons. cbn [strip_leading]. by rewrite Ha. }
    assert (strip_trailing "/" (s +:+ path_of l) = s +:+ path_of l) as ->.
    { pose proof (strip_trailing_path _ Hl) as Hp.
      rewrite path_of_cons in Hp. cbn [strip_trailing] in Hp.
      destruct (strip_trailing "/" (s +:+ path_of l)) eqn:Hst.
      - apply Forall_cons in Hl as [Hs _].
        destruct (simple_cons _ _ Hs) as (a & r & -> & Ha).
        rewrite Ascii.eqb_refl in Hp. discriminate.
      - by injection Hp. }
    by apply split_on_path. }
  split; [done|]. rewrite <- Hseg at 2. unfold segments.
  assert (strip_leading "/" (path_of (s :: l) +:+ "/")
          = strip_leading "/" (path_of (s :: l)) +:+ "/") as ->.
  { rewrite path_of_cons, append_cons. cbn [strip_leading].
    rewrite Ascii.eqb_refl.
    apply Forall_cons in Hl as [Hs _].
    destruct (simple_cons _ _ Hs) as (a & r & -> & Ha).
    rewrite !append_cons. cbn [strip_leading]. by rewrite Ha. }
  by rewrite strip_trailing_snoc.
Qed.

(** X9. A location below a meeting, [/<area>/<tenant>/<resource>]
    followed by any number of further segments, with or without a slash
    at its end, has the identifier [d:<tenant>:<resource>] of that
    meeting; the base path starts with [/meeting/] whatever the area
    is. *)
Theorem subpages_share_the_meeting area tenant resource rest me :
  Forall (simple "/") (area :: tenant :: resource :: rest) →
  let path := path_of (area :: tenant :: resource :: rest) in
  ∀ E, (E = {| location_path := path; me_id := me |}
        ∨ E = {| location_path := path +:+ "/"; me_id := me |}) →
  meetingId E = "d:" +:+ tenant +:+ ":" +:+ resource
  ∧ baseUrl E = "/meeting/" +:+ tenant +:+ "/" +:+ resource.
Proof.
  intros Hl path E HE.
  destruct (segments_path _ Hl) as [H1 H2]; [done|].
  unfold meetingId, baseUrl, segment.
  destruct HE as [-> | ->]; cbn [location_path]; subst path.
  - rewrite H1. by split.
  - rewrite H2. by split.
Qed.

(** X10. At a location of two segments only the resource is missing:
    the identifier ends in [undefined], and the page load does not throw
    but asks the server for the meeting of that name. *)
Theorem short_location_fetches_undefined area tenant me h :
  simple "/" area → simple "/" tenant →
  let E := {| location_path := path_of [area; tenant]; me_id := me |} in
  meetingId E = "d:" +:+ tenant +:+ ":undefined"
  ∧ ∃ s, page_load E (blank h) = (Ret tt, awaiting E h)
       ∧ Api.pending (traffic (awaiting E h)) = [s]
       ∧ Api.url s = "/api/meeting/d:" +:+ tenant +:+ ":undefined".
Proof.
  intros Ha Ht E.
  destruct (segments_path [area; tenant]) as [H1 _]; [by repeat apply Forall_cons_2|done|].
  assert (meetingId E = "d:" +:+ tenant +:+ ":undefined") as Hid.
  { unfold meetingId, segment. subst E. cbn [location_path]. by rewrite H1. }
  split; [done|]. eexists. split; [reflexivity|]. split; [reflexivity|].
  cbn [Api.url]. cbn [to_str]. by rewrite Hid.
Qed.

Lemma subpages_share_the_meeting_witness :
  Forall (simple "/") ["meeting"; "cam"; "xyz"; "comments"]
  ∧ meetingId {| location_path := "/meeting/cam/xyz/comments/";
                 me_id := JNull |}
    = "d:cam:xyz".
Proof.
  assert (Forall (simple "/") ["meeting"; "cam"; "xyz"; "comments"]) as Hl
    by (repeat apply Forall_cons_2; try apply Forall_nil_2;
        (split; [discriminate | reflexivity])).
  split; [exact Hl|].
  exact (proj1 (subpages_share_the_meeting "meeting" "cam" "xyz" ["comments"]
                  JNull Hl _ (or_intror eq_refl))).
Defined.

Lemma short_location_fetches_undefined_witness :
  simple "/" "meeting" ∧ simple "/" "cam"
  ∧ meetingId {| location_path := "/meeting/cam"; me_id := JNull |}
    = "d:cam:undefined".
Proof.
  assert (simple "/" "meeting") as Ha by (split; [discriminate | reflexivity]).
  assert (simple "/" "cam") as Ht by (split; [discriminate | reflexivity]).
  split; [exact Ha|]. split; [exact Ht|].
  exact (proj1 (short_location_fetches_undefined "meeting" "cam" JNull ∅
                  Ha Ht)).
Defined.

End Locations.

(** ** The page controller: sessions *)

Section PageSessions.
Import Page Session.

Ltac open_wired w H :=
  destruct w as [h p docs wins subs topic clip net tr];
  destruct H as (Hd & (pages & Hw) & (sub & Hs));
  cbn [on_document on_window subscriptions meetingProfile] in *; subst.

Variable E : env.

(** X8. The page load never throws, whatever the location is: it binds
    the two handlers and sends one GET for [/api/meeting/<meetingId>];
    nothing is rendered and nothing is subscribed to before the reply. *)
Theorem page_load_fetches_profile h :
  ∃ s, page_load E (blank h) = (Ret tt, awaiting E h)
     ∧ Api.pending (traffic (awaiting E h)) = [s]
     ∧ Api.url s = "/api/meeting/" +:+ meetingId E
     ∧ Api.type_ s = None
     ∧ Api.data s = None
     ∧ on_document (awaiting E h)
       = [("oae.manageaccess.done", OnManageAccessDone);
          ("oae.editmeeting.done", OnEditMeetingDone)]
     ∧ meetingProfile (awaiting E h) = JNull
     ∧ trace (awaiting E h) = []
     ∧ subscriptions (awaiting E h) = [].
Proof. eexists. split; [reflexivity|]. split; [reflexivity|]. done. Qed.

(** X11. When the profile arrives, the page is set up in this order:
    the clip is rendered, the navigation is sent to the window with the
    title and the profile of the meeting, the profile is broadcast as
    the context, the page is shown; the responder, the replay of the
    navigation and one subscription to the activity stream of the
    meeting, signed with the signature of the profile, are in place, and
    the callback ran once. *)
Theorem initial_load_success fuel h l :
  step E (S fuel) (TransportCompletes 0 (Api.Success (JRef l))) (awaiting E h)
  = (Ret tt,
     {| store := h;
        meetingProfile := JRef l;
        on_document := doc_table;
        on_window :=
          [("oae.ready.lhnavigation",
            OnLhnavigationReady
              (lhNavPages (default JUndefined (obj_at h l !! "displayName"))
                 (JRef l)))];
        subscriptions :=
          [ {| resourceId := meetingId E; streamType := "activity";
               token := default JUndefined (obj_at h l !! "signature");
               transformer := "internal"; flag5 := false; flag6 := false |} ];
        topic_container := [];
        clip_container := Some (JRef l, false);
        traffic :=
          {| Api.pending := [];
             Api.calls := [("getMeetingProfile",
                            [Api.ArgNull; Api.ArgData (JRef l)])];
             Api.console := [] |};
        trace :=
          [ERender "#meeting-clip-template" (JRef l) false
             "#meeting-clip-container";
           ETrigger Window "oae.trigger.lhnavigation"
             (TNavigation
                (lhNavPages (default JUndefined (obj_at h l !! "displayName"))
                   (JRef l))
                (baseUrl E));
           ETrigger Document "oae.context.send" (TData (JRef l));
           EShowPage] |}).
Proof. apply fetch_success. Qed.

(** X12. A success without a body stops the setup half way: the clip is
    rendered with the empty profile, then reading its [displayName]
    throws a TypeError; the page is never shown, and neither the
    responder nor the subscription is set up. *)
Theorem empty_body_aborts_setup fuel h v :
  v = JNull ∨ v = JUndefined →
  step E fuel (TransportCompletes 0 (Api.Success v)) (awaiting E h)
  = (Throw JsTypeError,
     set_trace [ERender "#meeting-clip-template" v false
                  "#meeting-clip-container"]
       (set_clip_container (Some (v, false))
          (set_meetingProfile v
             (set_traffic
                {| Api.pending := [];
                   Api.calls := [("getMeetingProfile",
                                  [Api.ArgNull; Api.ArgData v])];
                   Api.console := [] |}
                (awaiting E h))))).
Proof. intros [-> | ->]; vm_compute; reflexivity. Qed.

(** X13. Before the profile has arrived, a push message and a request
    for the context go unanswered, since the subscription and the
    responder are set up by the reply only; an edit event is handled
    already, its handler being bound by the page load. *)
Theorem awaiting_page_reactions fuel h args activities v :
  step E fuel (PushMessage activities) (awaiting E h) = (Ret tt, awaiting E h)
  ∧ step E (S fuel) (Triggered Document "oae.context.get" args) (awaiting E h)
    = (Ret tt, awaiting E h)
  ∧ step E (S fuel) (Triggered Document "oae.editmeeting.done" [v])
      (awaiting E h)
    = (Ret tt, refreshed v (awaiting E h)).
Proof. split; [reflexivity|]. split; reflexivity. Qed.

(** What a session keeps: the handlers, the subscription and the
    connection, whatever the outcome of a handler is. *)
Lemma bind_keeps {A B} (P : world → Prop) (m : M A) (k : A → M B) w :
  P (m w).2 → (∀ a w', P w' → P (k a w').2) →
  P ((x <- m ;; k x) w).2.
Proof. unfold st_bind. destruct (m w) as [[a| | |] w1]; cbn; auto. Qed.

Lemma lift_keeps {A} (P : world → Prop) (o : outcome A) w :
  P w → P (lift o w).2.
Proof. by destruct o. Qed.

Lemma for_each_keeps {A} (P : world → Prop) (f : A → M unit) l w :
  P w → (∀ x w, P w → P (f x w).2) → P (for_each f l w).2.
Proof.
  intros Hw Hf. revert w Hw.
  induction l as [|x l IH]; intros w Hw; cbn [for_each]; [done|].
  apply bind_keeps; auto.
Qed.

Lemma dispatch_window_keeps n fuel name w :
  wired w ∧ traffic w = n →
  wired (dispatch_window E fuel name w).2
  ∧ traffic (dispatch_window E fuel name w).2 = n.
Proof.
  revert name w. induction fuel as [|fuel IH]; intros name w Hw; [done|].
  cbn [dispatch_window]. destruct (plain_name name); [|done]. cbn [negb].
  apply (bind_keeps (λ w, wired w ∧ traffic w = n)); [done|].
  intros bound w1 Hw1.
  apply (for_each_keeps (λ w, wired w ∧ traffic w = n)); [done|].
  intros [b [pages]] w2 Hw2. cbn [snd].
  apply (bind_keeps (λ w, wired w ∧ traffic w = n)); [done|].
  intros _ w3 Hw3. by apply IH.
Qed.

Lemma trigger_window_keeps n fuel name d w :
  wired w ∧ traffic w = n →
  wired (trigger_window E fuel name d w).2
  ∧ traffic (trigger_window E fuel name d w).2 = n.
Proof.
  intros Hw. apply (bind_keeps (λ w, wired w ∧ traffic w = n)); [done|].
  intros _ w1 Hw1. by apply dispatch_window_keeps.
Qed.

Lemma dispatch_document_keeps n fuel name args w :
  wired w ∧ traffic w = n →
  wired (dispatch_document E fuel name args w).2
  ∧ traffic (dispatch_document E fuel name args w).2 = n.
Proof.
  revert name args w.
  induction fuel as [|fuel IH]; intros name args w Hw; [done|].
  cbn [dispatch_document]. destruct (plain_name name); [|done]. cbn [negb].
  apply (bind_keeps (λ w, wired w ∧ traffic w = n)); [done|].
  intros bound w1 Hw1.
  apply (bind_keeps (λ w, wired w ∧ traffic w = n)); [done|].
  intros above w2 Hw2.
  apply (bind_keeps (λ w, wired w ∧ traffic w = n)).
  - apply (for_each_keeps (λ w, wired w ∧ traffic w = n)); [done|].
    intros [b f] w3 Hw3. cbn [snd].
    assert (∀ name v w,
              wired w ∧ traffic w = n →
              wired ((emit (ETrigger Document name (TData v)) ;;;
                      h <- gets store ;;
                      dispatch_document E fuel name (trigger_args h v)) w).2
              ∧ traffic ((emit (ETrigger Document name (TData v)) ;;;
                          h <- gets store ;;
                          dispatch_document E fuel name (trigger_args h v))
                           w).2 = n) as Htrigger.
    { intros name' v w' Hw'.
      apply (bind_keeps (λ w, wired w ∧ traffic w = n)); [done|].
      intros _ w4 Hw4.
      apply (bind_keeps (λ w, wired w ∧ traffic w = n)); [done|].
      intros h w5 Hw5. by apply IH. }
    destruct f; cbn [doc_handler_body].
    + done.
    + by rewrite refresh_eq.
    + destruct (truthy (param args 0));
        (apply (bind_keeps (λ w, wired w ∧ traffic w = n)); [done|]);
        intros p w4 Hw4; by apply Htrigger.
  - intros _ w3 Hw3.
    apply (for_each_keeps (λ w, wired w ∧ traffic w = n)); [done|].
    intros [b [pages]] w4 Hw4. cbn [snd]. by apply trigger_window_keeps.
Qed.

(** A response for which no request is in flight is dropped. *)
Lemma completion_idle fuel i r w :
  Api.pending (traffic w) = [] →
  step E fuel (TransportCompletes i r) w = (Ret tt, w).
Proof.
  destruct w as [h p docs wins subs topic clip [pend calls cons] tr].
  cbn [traffic Api.pending]. intros ->.
  unfold step, st_bind, gets, on_traffic, Api.complete. cbn -[drop lookup].
  rewrite lookup_nil. cbn -[drop]. by rewrite drop_all.
Qed.

Lemma copy_keeps n a p w :
  wired w ∧ traffic w = n →
  wired ((object <- object_of a ;; copy_from_profile object p) w).2
  ∧ traffic ((object <- object_of a ;; copy_from_profile object p) w).2 = n.
Proof.
  intros Hw. unfold object_of, copy_from_profile.
  repeat (apply (bind_keeps (λ w, wired w ∧ traffic w = n));
          [first [done | by apply (lift_keeps (λ w, wired w ∧ traffic w = n))]
          | intros ? ? ?]).
  done.
Qed.

Lemma on_activities_keeps n fuel acts w :
  wired w ∧ traffic w = n →
  wired (on_activities E fuel acts w).2
  ∧ traffic (on_activities E fuel acts w).2 = n.
Proof.
  intros Hw. unfold on_activities.
  apply (bind_keeps (λ w, wired w ∧ traffic w = n)); [done|].
  intros h w1 Hw1.
  apply (bind_keeps (λ w, wired w ∧ traffic w = n));
    [by apply (lift_keeps (λ w, wired w ∧ traffic w = n))|].
  intros actor w2 Hw2.
  apply (bind_keeps (λ w, wired w ∧ traffic w = n));
    [by apply (lift_keeps (λ w, wired w ∧ traffic w = n))|].
  intros id w3 Hw3. destruct (negb _); [|done].
  apply (bind_keeps (λ w, wired w ∧ traffic w = n));
    [by apply (lift_keeps (λ w, wired w ∧ traffic w = n))|].
  intros ty w4 Hw4. destruct (contains _ _); [|done].
  apply (bind_keeps (λ w, wired w ∧ traffic w = n)); [by apply copy_keeps|].
  intros _ w5 Hw5.
  apply (bind_keeps (λ w, wired w ∧ traffic w = n)); [by apply copy_keeps|].
  intros _ w6 Hw6.
  apply (bind_keeps (λ w, wired w ∧ traffic w = n)); [by apply copy_keeps|].
  intros _ w7 Hw7.
  apply (bind_keeps (λ w, wired w ∧ traffic w = n)).
  { unfold object_of.
    apply (bind_keeps (λ w, wired w ∧ traffic w = n)); [done|].
    intros h' w8 Hw8. by apply (lift_keeps (λ w, wired w ∧ traffic w = n)). }
  intros object w8 Hw8. unfold trigger_document.
  apply (bind_keeps (λ w, wired w ∧ traffic w = n)); [done|].
  intros _ w9 Hw9.
  apply (bind_keeps (λ w, wired w ∧ traffic w = n)); [done|].
  intros h' w10 Hw10. by apply dispatch_document_keeps.
Qed.

Lemma step_keeps fuel ev w :
  wired w → Api.pending (traffic w) = [] →
  wired (step E fuel ev w).2 ∧ traffic (step E fuel ev w).2 = traffic w.
Proof.
  intros Hw Hp. destruct ev as [i r | acts | [] name args].
  - by rewrite completion_idle.
  - rewrite step_push by done. by apply on_activities_keeps.
  - by apply dispatch_document_keeps.
  - by apply dispatch_window_keeps.
Qed.

(** X15. Once the page is set up and its request has been answered,
    no sequence of events changes what is bound and subscribed to, and
    the controller never uses the connection again: responses that
    arrive late, push messages, those that make the handler throw too,
    and custom events of any name leave one handler per event, one
    subscription, and the traffic as it is. *)
Theorem session_keeps_wiring fuel events w :
  wired w → Api.pending (traffic w) = [] →
  wired (run E fuel events w) ∧ traffic (run E fuel events w) = traffic w.
Proof.
  revert w. induction events as [|ev events IH]; intros w Hw Hp; [done|].
  cbn [run]. destruct (step_keeps fuel ev w Hw Hp) as [Hw' Ht].
  rewrite <- Ht. apply IH; [done|]. by rewrite Ht.
Qed.

(** *** When the push handler throws *)

Lemma set_prop_get_prop h o p v h' a q :
  set_prop h o p v = Ret h' → p ≠ q → get_prop h' a q = get_prop h a q.
Proof.
  intros Hs Hpq. destruct o; cbn in Hs; try done;
    try (by injection Hs as <-).
  injection Hs as <-. destruct a; cbn; try done.
  destruct (decide (l0 = l)) as [->|Hne].
  - unfold obj_at at 1. rewrite lookup_insert_eq. cbn.
    by rewrite lookup_insert_ne.
  - unfold obj_at at 1. by rewrite lookup_insert_ne.
Qed.

(** An assignment throws when the profile or the object is [null] or
    [undefined], before anything is written. *)
Lemma copy_step_throws w a object p :
  get_prop (store w) a "object" = Ret object →
  nullish (meetingProfile w) = true ∨ nullish object = true →
  (object <- object_of a ;; copy_from_profile object p) w
  = (Throw JsTypeError, w).
Proof.
  intros Ho Hn. unfold object_of, copy_from_profile, st_bind, gets, lift.
  rewrite Ho. cbn.
  destruct (meetingProfile w); destruct object; cbn;
    try destruct (String.eqb p "length"); cbn; try reflexivity;
    by destruct Hn.
Qed.

(** Otherwise it writes to the heap, if at all, and the activity keeps
    its object. *)
Lemma copy_step_returns w a object p :
  get_prop (store w) a "object" = Ret object → p ≠ "object" →
  nullish (meetingProfile w) = false → nullish object = false →
  ∃ h', (object <- object_of a ;; copy_from_profile object p) w
        = (Ret tt, set_store h' w)
      ∧ get_prop h' a "object" = Ret object.
Proof.
  intros Ho Hp Hn1 Hn2.
  unfold object_of, copy_from_profile, st_bind, gets, lift. rewrite Ho. cbn.
  destruct (get_prop_cases (store w) (meetingProfile w) p) as [Hv | [v Hv]].
  { revert Hn1 Hv. destruct (meetingProfile w); cbn; try done.
    by destruct (String.eqb p "length"). }
  rewrite Hv. cbn.
  destruct (set_prop (store w) object p v) as [h'| | |] eqn:Hs;
    [|revert Hn2 Hs; by destruct object..].
  cbn. exists h'. split; [done|].
  by rewrite (set_prop_get_prop _ _ _ _ _ _ _ Hs Hp).
Qed.

(** A qualifying activity with a profile and an object to copy between
    is handled to the end. *)
Lemma push_returns fuel w a rest object :
  wired w → qualifies E (store w) a →
  get_prop (store w) a "object" = Ret object →
  nullish (meetingProfile w) = false → nullish object = false →
  ∃ w', step E (S fuel) (PushMessage (a :: rest)) w = (Ret tt, w').
Proof.
  intros Hw Hq Ho Hn1 Hn2. rewrite push_unfold by done.
  destruct (copy_step_returns w a object "canShare") as (h1 & H1 & Ho1);
    [done..|].
  rewrite (bind_eq _ _ _ _ _ H1).
  destruct (copy_step_returns (set_store h1 w) a object "canPost")
    as (h2 & H2 & Ho2); [done..|].
  rewrite (bind_eq _ _ _ _ _ H2).
  destruct (copy_step_returns (set_store h2 (set_store h1 w)) a object
              "isManager") as (h3 & H3 & Ho3); [done..|].
  rewrite (bind_eq _ _ _ _ _ H3).
  unfold object_of at 1, st_bind at 1 2, gets at 1, lift at 1.
  cbn [store set_store]. rewrite Ho3. cbn [st_ret].
  unfold trigger_document, emit.
  erewrite bind_eq by reflexivity. erewrite bind_eq by reflexivity.
  rewrite dispatch_edit_done by done. by eexists.
Qed.

(** X16. The push handler throws in these cases only, always with a
    TypeError and before anything has changed: when the first activity
    of the message is missing, [null] or [undefined], when it has no
    actor, and when it is an activity of another user and of a supported
    type while the cached profile or the object of the activity is
    [null] or [undefined]. *)
Theorem push_failure_is_atomic fuel w acts e w' :
  wired w →
  let a := hd JUndefined acts in
  step E (S fuel) (PushMessage acts) w = (Throw e, w')
  ↔ e = JsTypeError ∧ w' = w
    ∧ (nullish a = true
       ∨ (∃ actor, get_prop (store w) a "actor" = Ret actor
                   ∧ nullish actor = true)
       ∨ (qualifies E (store w) a
          ∧ (nullish (meetingProfile w) = true
             ∨ ∃ object, get_prop (store w) a "object" = Ret object
                         ∧ nullish object = true))).
Proof.
  intros Hw a.
  assert (step E (S fuel) (PushMessage acts) w
          = step E (S fuel) (PushMessage (a :: tl acts)) w) as ->
    by (rewrite !step_push by done; by destruct acts).
  split.
  - destruct (actor_id_cases (store w) a) as [Hid | [id Hid]].
    { rewrite step_push, on_activities_throws by done.
      intros [= <- <-]. split; [done|]. split; [done|].
      apply actor_id_throws in Hid as [?|?]; auto. }
    destruct (decide (id = me_id E)) as [Hme|Hme];
      [by rewrite (push_skip E (S fuel) w a (tl acts) id Hw Hid) by auto|].
    destruct (actor_id_object _ _ _ "oae:activityType" Hid) as [ty Hty].
    destruct (decide (ty ∈ supportedActivities)) as [Hin|Hin];
      [|by rewrite (push_skip E (S fuel) w a (tl acts) id Hw Hid) by eauto].
    assert (qualifies E (store w) a) as Hq by (by exists id, ty).
    destruct (actor_id_object _ _ _ "object" Hid) as [object Ho].
    destruct (nullish (meetingProfile w)) eqn:Hn1.
    { rewrite push_unfold by done. unfold st_bind at 1.
      rewrite (copy_step_throws _ _ object) by auto.
      intros [= <- <-]. split; [done|]. split; [done|].
      right. right. split; [done|]. by left. }
    destruct (nullish object) eqn:Hn2.
    { rewrite push_unfold by done. unfold st_bind at 1.
      rewrite (copy_step_throws _ _ object) by auto.
      intros [= <- <-]. split; [done|]. split; [done|].
      right. right. split; [done|]. right. by exists object. }
    by destruct (push_returns fuel w a (tl acts) object) as [w1 ->].
  - intros (-> & -> & [Ha | [(actor & Hactor & Hn) | [Hq Hn]]]).
    + rewrite step_push by done. rewrite on_activities_throws; [done|].
      apply actor_id_throws. by left.
    + rewrite step_push by done. rewrite on_activities_throws; [done|].
      apply actor_id_throws. right. by exists actor.
    + rewrite push_unfold by done. unfold st_bind at 1.
      destruct Hq as (id & ty & Hid & _).
      destruct (actor_id_object _ _ _ "object" Hid) as [object Ho].
      rewrite (copy_step_throws _ _ object); [done..|].
      destruct Hn as [Hn | (object' & Ho' & Hn)]; [by left|].
      right. congruence.
Qed.

(** X17. An edit event without a meeting empties the cache: the topic
    and the clip are rendered with [undefined], which becomes the cached
    profile, and from then on every push message that qualifies makes
    the handler throw and changes nothing. *)
Theorem edit_without_payload_drops_profile fuel w v a rest :
  wired w → v = JNull ∨ v = JUndefined →
  qualifies E (store w) a →
  let w1 := refreshed JUndefined w in
  step E (S fuel)
    (Triggered Document "oae.editmeeting.done" (trigger_args (store w) v)) w
  = (Ret tt, w1)
  ∧ meetingProfile w1 = JUndefined
  ∧ step E (S fuel) (PushMessage (a :: rest)) w1 = (Throw JsTypeError, w1).
Proof.
  intros Hw Hv Hq w1. split; [|split; [done|]].
  - cbn [step]. rewrite dispatch_edit_done by done.
    by destruct Hv as [-> | ->].
  - rewrite push_unfold by done. unfold st_bind at 1.
    destruct Hq as (id & ty & Hid & _).
    destruct (actor_id_object _ _ _ "object" Hid) as [object Ho].
    rewrite (copy_step_throws _ _ object); [done|done|by left].
Qed.

(** X18. When the access has been updated, the clip is rendered again
    with the cached profile and nothing else happens: the profile, the
    topic, the handlers and the traffic stay, whatever comes with the
    event. *)
Theorem access_update_rerenders_clip fuel w args :
  wired w →
  step E (S fuel) (Triggered Document "oae.manageaccess.done" args) w
  = (Ret tt,
     set_clip_container (Some (meetingProfile w, false))
       (set_trace
          (trace w ++ [ERender "#meeting-clip-template" (meetingProfile w)
                         false "#meeting-clip-container"]) w)).
Proof. intros Hw. open_wired w Hw. reflexivity. Qed.

(** X19. The navigation is built once: after the profile has been
    replaced by an edit event, the replay for a navigation that becomes
    ready still carries the title and the profile of the initial
    load. *)
Theorem navigation_replay_is_captured fuel h l v args :
  let w0 := (step E (S (S fuel)) (TransportCompletes 0 (Api.Success (JRef l)))
               (awaiting E h)).2 in
  let w1 := (step E (S (S fuel)) (Triggered Document "oae.editmeeting.done" [v])
               w0).2 in
  meetingProfile w1 = v
  ∧ step E (S (S fuel)) (Triggered Window "oae.ready.lhnavigation" args) w1
    = (Ret tt,
       set_trace
         (trace w1
          ++ [ETrigger Window "oae.trigger.lhnavigation"
                (TNavigation
                   (lhNavPages
                      (default JUndefined (obj_at h l !! "displayName"))
                      (JRef l))
                   (baseUrl E))]) w1).
Proof.
  intros w0 w1. subst w1 w0. rewrite fetch_success. cbn [snd step].
  rewrite dispatch_edit_done by (split; [done|split; by eexists]).
  split; [done|]. cbn [snd]. reflexivity.
Qed.

End PageSessions.

(** ** Manage access *)

Section ManageAccess.
Import Page Access.

Variable translate : string → list (string * string) → string.
Variable encodeForHTML : jsval → string.

(** X20. [getManageAccessData] throws a TypeError exactly when the
    cached profile is [null] or [undefined], as it is before the
    profile has arrived, or has no tenant; it leaves the page as it
    is. *)
Theorem manage_access_needs_tenant w :
  getManageAccessData translate encodeForHTML w = (Throw JsTypeError, w)
  ↔ (meetingProfile w = JNull ∨ meetingProfile w = JUndefined
     ∨ ∃ tenant, get_prop (store w) (meetingProfile w) "tenant" = Ret tenant
                 ∧ (tenant = JNull ∨ tenant = JUndefined)).
Proof.
  unfold getManageAccessData, st_bind, gets, lift. split.
  - destruct (meetingProfile w) as [| | b | z | s | l] eqn:Hp; cbn;
      [by auto | by auto | | | |];
      try (intros _; right; right; exists JUndefined; by auto).
    destruct (default JUndefined (obj_at (store w) l !! "tenant")) eqn:Ht;
      cbn; try discriminate; try destruct (String.eqb _ "length");
      try discriminate; intros _; right; right; by eauto.
  - intros [Hp | [Hp | (t & Ht & Hc)]]; rewrite ?Hp; [done..|].
    rewrite Ht. cbn. by destruct Hc as [-> | ->].
Qed.

(** X21. With a profile that has a tenant and an identifier, the data
    for the manageaccess widget carry the cached profile itself, and
    the address they give for the members is the one that both
    [getMembers], reading, and the update function they carry, posting,
    use for that profile. *)
Theorem manage_access_addresses_members w l tenant members cb start limit n :
  meetingProfile w = JRef l →
  obj_at (store w) l !! "tenant" = Some (JRef tenant) →
  truthy (default JUndefined (obj_at (store w) l !! "id")) = true →
  truthy members = true → keys (store w) members ≠ [] →
  ∃ d s1 s2,
    getManageAccessData translate encodeForHTML w = (Ret d, w)
    ∧ contextProfile d = JRef l
    ∧ let id := default JUndefined (obj_at (store w) l !! "id") in
      Api.getMembers id start limit cb n = (Ret tt, Api.issued n s1)
      ∧ call (store w) (setMembers d) id members cb n
        = (Ret tt, Api.issued n s2)
      ∧ Api.url s1 = getMembersURL d ∧ Api.type_ s1 = None
      ∧ Api.url s2 = getMembersURL d ∧ Api.type_ s2 = Some "POST".
Proof.
  intros Hp Ht Hid Hm Hk. eexists _, _, _.
  split.
  { unfold getManageAccessData, st_bind, gets, lift. rewrite Hp. cbn.
    rewrite Ht. cbn. reflexivity. }
  split; [reflexivity|].
  cbn [setMembers getMembersURL call].
  unfold Api.getMembers, Api.updateMembers. rewrite Hid, Hm.
  destruct (keys (store w) members) as [|k ks] eqn:Hks; [done|].
  cbn. repeat split.
Qed.

End ManageAccess.

(** *** On the sample pages *)

Section SampleSessions.
Import Page Session Access.

Ltac evaluate_wired :=
  split; [vm_compute; reflexivity | split; eexists; vm_compute; reflexivity].

Lemma empty_body_aborts_setup_witness :
  (JNull = JNull ∨ JNull = JUndefined)
  ∧ (step sample_env 2 (TransportCompletes 0 (Api.Success JNull))
       (awaiting sample_env sample_heap)).1
    = Throw JsTypeError.
Proof.
  split; [left; reflexivity|].
  exact (f_equal fst (empty_body_aborts_setup sample_env 2 sample_heap JNull
                        (or_introl eq_refl))).
Defined.

Lemma handlers_return_witness :
  (2 ≤ 2)%nat ∧ wired sample_loaded
  ∧ plain_name "oae.context.get" = true
  ∧ plain_name (to_str (JStr "comments")) = true
  ∧ ∃ w', step sample_env 2
            (Triggered Document "oae.context.get" [JStr "comments"])
            sample_loaded = (Ret tt, w')
        ∧ wired w'.
Proof.
  assert (wired sample_loaded) as Hw by evaluate_wired.
  split; [lia|]. split; [exact Hw|].
  split; [reflexivity|]. split; [reflexivity|].
  exact (handlers_return sample_env 2 sample_loaded Document
           "oae.context.get" [JStr "comments"] (le_n 2) Hw eq_refl
           (λ _ _, eq_refl)).
Defined.

Lemma session_keeps_wiring_witness :
  wired sample_loaded
  ∧ Api.pending (traffic sample_loaded) = []
  ∧ wired (run sample_env 2
             [PushMessage [];
              TransportCompletes 0 (Api.Success JNull);
              PushMessage [sample_activity];
              Triggered Document "oae.context.get" []]
             sample_loaded).
Proof.
  assert (wired sample_loaded) as Hw by evaluate_wired.
  assert (Api.pending (traffic sample_loaded) = []) as Hp
    by (vm_compute; reflexivity).
  split; [exact Hw|]. split; [exact Hp|].
  exact (proj1 (session_keeps_wiring sample_env 2 _ sample_loaded Hw Hp)).
Defined.

Lemma push_failure_is_atomic_witness :
  wired sample_loaded
  ∧ step sample_env 1 (PushMessage []) sample_loaded
    = (Throw JsTypeError, sample_loaded).
Proof.
  assert (wired sample_loaded) as Hw by evaluate_wired.
  split; [exact Hw|].
  exact (proj2 (push_failure_is_atomic sample_env 0 sample_loaded []
                  JsTypeError sample_loaded Hw)
           (conj eq_refl (conj eq_refl (or_introl eq_refl)))).
Defined.

Lemma edit_without_payload_drops_profile_witness :
  wired sample_loaded
  ∧ (JNull = JNull ∨ JNull = JUndefined)
  ∧ qualifies sample_env (store sample_loaded) sample_activity
  ∧ step sample_env 1 (PushMessage [sample_activity])
      (refreshed JUndefined sample_loaded)
    = (Throw JsTypeError, refreshed JUndefined sample_loaded).
Proof.
  assert (wired sample_loaded) as Hw by evaluate_wired.
  assert (qualifies sample_env (store sample_loaded) sample_activity) as Hq.
  { exists (JStr "u:cam:other"), (JStr "meeting-update").
    split; [vm_compute; reflexivity|]. split; [discriminate|].
    split; [vm_compute; reflexivity | apply list_elem_of_here]. }
  split; [exact Hw|]. split; [left; reflexivity|]. split; [exact Hq|].
  exact (proj2 (proj2 (edit_without_payload_drops_profile sample_env 0
                         sample_loaded JNull sample_activity [] Hw
                         (or_introl eq_refl) Hq))).
Defined.

Lemma access_update_rerenders_clip_witness :
  wired sample_loaded
  ∧ clip_container
      (step sample_env 1 (Triggered Document "oae.manageaccess.done" [])
         sample_loaded).2
    = Some (meetingProfile sample_loaded, false).
Proof.
  assert (wired sample_loaded) as Hw by evaluate_wired.
  split; [exact Hw|].
  exact (f_equal (λ r, clip_container r.2)
           (access_update_rerenders_clip sample_env 0 sample_loaded [] Hw)).
Defined.

Lemma manage_access_needs_tenant_witness :
  meetingProfile (awaiting sample_env sample_heap) = JNull
  ∧ getManageAccessData (λ key _, key) to_str (awaiting sample_env sample_heap)
    = (Throw JsTypeError, awaiting sample_env sample_heap).
Proof.
  split; [reflexivity|].
  exact (proj2 (manage_access_needs_tenant (λ key _, key) to_str
                  (awaiting sample_env sample_heap))
           (or_introl eq_refl)).
Defined.

Lemma manage_access_addresses_members_witness :
  meetingProfile sample_tenant_page = JRef 1
  ∧ obj_at (store sample_tenant_page) 1 !! "tenant" = Some (JRef 3)
  ∧ truthy (JRef 2) = true
  ∧ keys (store sample_tenant_page) (JRef 2) ≠ []
  ∧ ∃ d s,
      getManageAccessData (λ key _, key) to_str sample_tenant_page
      = (Ret d, sample_tenant_page)
      ∧ call (store sample_tenant_page) (setMembers d)
          (JStr "d:cam:xyz") (JRef 2) Api.CbUndefined Api.no_traffic
        = (Ret tt, Api.issued Api.no_traffic s)
      ∧ Api.url s = getMembersURL d.
Proof.
  assert (obj_at (store sample_tenant_page) 1 !! "tenant" = Some (JRef 3))
    as Ht by (vm_compute; reflexivity).
  assert (truthy (default JUndefined
                    (obj_at (store sample_tenant_page) 1 !! "id")) = true)
    as Hi by (vm_compute; reflexivity).
  assert (keys (store sample_tenant_page) (JRef 2) ≠ []) as Hk
    by (vm_compute; discriminate).
  split; [reflexivity|]. split; [exact Ht|]. split; [reflexivity|].
  split; [exact Hk|].
  destruct (manage_access_addresses_members (λ key _, key) to_str
              sample_tenant_page 1%positive 3%positive (JRef 2)
              Api.CbUndefined JNull JNull Api.no_traffic
              eq_refl Ht Hi eq_refl Hk)
    as (d & s1 & s2 & Hd & _ & _ & Hc & _ & _ & Hu & _).
  exists d, s2. split; [exact Hd|]. split; [|exact Hu].
  assert (default JUndefined (obj_at (store sample_tenant_page) 1 !! "id")
          = JStr "d:cam:xyz") as Hid by (vm_compute; reflexivity).
  rewrite Hid in Hc. exact Hc.
Defined.

End SampleSessions.
